(** * Natural Language SQL Interface: the request handlers of [server.py]
    and the SQL security layer they call.

    The handlers ([upload_file], [process_natural_language_query],
    [get_database_schema_endpoint], [delete_table], [export_table],
    [export_table_json]) are embedded from [app/server/server.py].  The
    module [core.sql_security] they import is embedded from its written
    contract; every such definition says so in its doc comment. *)

From Stdlib Require Import ZArith Ascii String List Bool Lia.
From stdpp Require Import base decidable option list gmap strings pretty.

(** ** Python [str] operations used by the handlers

    A [str] is embedded as a [string]: one [ascii] per character, the
    character's code point, which covers the code points below 256. *)
Module PyStr.

Definition code (c : ascii) : nat := nat_of_ascii c.

Definition is_upper (c : ascii) : bool := Nat.leb 65 (code c) && Nat.leb (code c) 90.
Definition is_lower (c : ascii) : bool := Nat.leb 97 (code c) && Nat.leb (code c) 122.
Definition is_digit (c : ascii) : bool := Nat.leb 48 (code c) && Nat.leb (code c) 57.

(** the capital letters above the ASCII range: U+00C0 to U+00DE without
    the multiplication sign U+00D7 *)
Definition is_latin1_capital (c : ascii) : bool :=
  Nat.leb 192 (code c) && Nat.leb (code c) 214
  || Nat.leb 216 (code c) && Nat.leb (code c) 222.

(** [str.lower()] on one character: every capital letter below code point
    256, ASCII or not, has its small letter 32 code points higher; every
    other character is left as it is *)
Definition lower_char (c : ascii) : ascii :=
  if is_upper c || is_latin1_capital c then ascii_of_nat (code c + 32) else c.

(** upper case of an ASCII letter; used to compare SQL keywords, which are
    ASCII, in any case *)
Definition upper_char (c : ascii) : ascii :=
  if is_lower c then ascii_of_nat (code c - 32) else c.

(** [s.lower()] *)
Fixpoint lower (s : string) : string :=
  match s with
  | EmptyString => EmptyString
  | String c r => String (lower_char c) (lower r)
  end.

(** the text with its ASCII letters in upper case *)
Fixpoint upper (s : string) : string :=
  match s with
  | EmptyString => EmptyString
  | String c r => String (upper_char c) (upper r)
  end.

(** [s.replace(a, b)] for one-character [a] and [b] *)
Fixpoint replace_char (a b : ascii) (s : string) : string :=
  match s with
  | EmptyString => EmptyString
  | String c r => String (if Ascii.eqb c a then b else c) (replace_char a b r)
  end.

(** [s.startswith(p)] *)
Fixpoint startswith (s p : string) : bool :=
  match p, s with
  | EmptyString, _ => true
  | String _ _, EmptyString => false
  | String a p', String b s' => Ascii.eqb a b && startswith s' p'
  end.

(** [s.endswith(p)] *)
Definition endswith (s p : string) : bool :=
  startswith (String.rev s) (String.rev p).

(** [s.endswith((p1, p2, ...))]: some suffix of the tuple matches *)
Definition endswith_any (s : string) (ps : list string) : bool :=
  existsb (endswith s) ps.

(** [rsplit_go c s] is [None] when [c] does not occur in [s], and
    otherwise the part of [s] before the last occurrence of [c]. *)
Fixpoint rsplit_go (c : ascii) (s : string) : option string :=
  match s with
  | EmptyString => None
  | String x r =>
      match rsplit_go c r with
      | Some h => Some (String x h)
      | None => if Ascii.eqb x c then Some EmptyString else None
      end
  end.

(** [s.rsplit(c, 1)[0]] *)
Definition rsplit1_head (c : ascii) (s : string) : string :=
  default s (rsplit_go c s).

(** the characters of a string, in order *)
Fixpoint chars (s : string) : list ascii :=
  match s with
  | EmptyString => []
  | String c r => c :: chars r
  end.

(** [sub in s] for a one-character [sub] *)
Definition contains_char (c : ascii) (s : string) : bool :=
  existsb (Ascii.eqb c) (chars s).

(** white space: tab, line feed, vertical tab, form feed, carriage return
    and space *)
Definition is_space (c : ascii) : bool :=
  Nat.leb 9 (code c) && Nat.leb (code c) 13 || Nat.eqb (code c) 32.

(** [s.lstrip()], on that white space *)
Fixpoint lstrip (s : string) : string :=
  match s with
  | EmptyString => EmptyString
  | String c r => if is_space c then lstrip r else s
  end.

(** [s.split()]: the maximal runs of characters that are not white space.
    [cur] is the run being read, if any. *)
Fixpoint split_go (cur : option string) (s : string) : list string :=
  match s with
  | EmptyString => option_list cur
  | String c r =>
      if is_space c then option_list cur ++ split_go None r
      else split_go (Some (default EmptyString cur +:+ String c EmptyString)) r
  end.
Definition split (s : string) : list string := split_go None s.

(** truth value of a [str]: the empty string is falsy *)
Definition truthy (s : string) : bool :=
  match s with EmptyString => false | String _ _ => true end.

End PyStr.

(** ** The SQL security layer, [core.sql_security]

    [server.py] imports [validate_identifier], [check_table_exists],
    [execute_query_safely] and [SQLSecurityError] from this module and
    calls them; the text of the module lies outside [server.py].  Its
    definitions below follow the written contract of the layer:
    Identifier Validator, Statement Template Engine, Policy Gate, Safe
    Executor and the existence check of the Schema Introspector. *)
Module SqlSecurity.
Import PyStr.

Inductive result (E A : Type) : Type :=
| Ok (a : A)
| Err (e : E).
Arguments Ok {E A} a.
Arguments Err {E A} e.

(** the [kind] argument of [validate_identifier]; [server.py] passes ["table"] *)
Inductive IdentifierKind := KTable | KColumn.

(** why a raw name is not an identifier, in the order of the contract *)
Inductive InvalidReason :=
| IsEmpty
| TooLong
| BadCharacter
| LeadingDigit
| ReservedWord.

(** The validation and policy kinds of the error taxonomy; in the source
    they are raised as [SQLSecurityError]. *)
Inductive SQLSecurityError :=
| InvalidIdentifierError (kind : IdentifierKind) (raw : string) (why : InvalidReason)
| UnboundPlaceholderError (placeholder : string)
| UnvalidatedIdentifierError (placeholder : string) (raw : string)
| RejectedStatementError
| DdlNotPermittedError.

(** The store-level kinds of the taxonomy: the structured cause carried by
    an [ExecutionResult]. *)
Inductive StoreFailure :=
| SyntaxError
| ConstraintViolation
| NotFoundError
| TimeoutError
| StoreUnavailableError
| UnknownExecutionError.

(** a cell of a row: SQLite's storage classes; a REAL is kept as the bit
    pattern of its double *)
Inductive Value :=
| VNull
| VInt (z : Z)
| VReal (bits : Z)
| VText (s : string)
| VBlob (b : list ascii).

Record ExecutionResult := mkExecutionResult {
  columns : list string;
  rows : list (list Value);
  error : option StoreFailure
}.

Definition succeeded (cols : list string) (rs : list (list Value)) : ExecutionResult :=
  {| columns := cols; rows := rs; error := None |}.
Definition failed (cause : StoreFailure) : ExecutionResult :=
  {| columns := []; rows := []; error := Some cause |}.

(** a table of the store: declared columns (name, declared type) and rows *)
Record Table := mkTable {
  t_columns : list (string * string);
  t_rows : list (list Value)
}.

(** The persisted store behind a connection: the catalog with the tables'
    contents, and the statements handed to it so far, oldest first. *)
Record Store := mkStore {
  tables : gmap string Table;
  journal : list string
}.

Inductive StatementClass := READ | DDL.

Record RenderedStatement := mkRendered {
  text : string;
  params : list (string * Value)
}.

(** the character class [[A-Za-z0-9_]] *)
Definition is_ident_char (c : ascii) : bool :=
  is_upper c || is_lower c || is_digit c || Ascii.eqb c "_".

Definition starts_with_digit (s : string) : bool :=
  match s with
  | EmptyString => false
  | String c _ => is_digit c
  end.

(** the fixed allow-list of the Policy Gate *)
Definition allow_list : list (string * StatementClass) :=
  [ ("SELECT", READ); ("WITH", READ);
    ("DROP TABLE", DDL); ("CREATE TABLE", DDL); ("ALTER TABLE", DDL) ].

(** the statement separator *)
Definition separator : ascii := ";"%char.

Definition has_separator (stmt : string) : bool := contains_char separator stmt.

(** [take_word s] splits [s] into its longest prefix of identifier
    characters and the rest. *)
Fixpoint take_word (s : string) : string * string :=
  match s with
  | EmptyString => (EmptyString, EmptyString)
  | String c r =>
      if is_ident_char c
      then let '(w, rest) := take_word r in (String c w, rest)
      else (EmptyString, s)
  end.

(** The leading keyword of a statement, upper-cased: its first word, and
    its first two words joined by one space (the form of the two-word
    entries of the allow-list). *)
Definition leading_keyword (stmt : string) : string * string :=
  let '(w1, r1) := take_word (lstrip (upper stmt)) in
  let '(w2, _) := take_word (lstrip r1) in
  (w1, w1 +:+ " " +:+ w2).

Definition keyword_matches (stmt : string) (entry : string * StatementClass) : bool :=
  let '(w, ww) := leading_keyword stmt in
  String.eqb (fst entry) w || String.eqb (fst entry) ww.

(** Modelled from the spec: the Policy Gate's [classify], whose text is in
    [core.sql_security].  A statement holding a separator is a
    multi-statement batch and is rejected; otherwise the leading keyword is
    looked up in the allow-list, and anything else is rejected. *)
Definition classify (stmt : string) : result SQLSecurityError StatementClass :=
  if has_separator stmt then Err RejectedStatementError
  else match find (keyword_matches stmt) allow_list with
       | Some (_, cls) => Ok cls
       | None => Err RejectedStatementError
       end.

(** [DROP TABLE [IF EXISTS] name], keywords in any case: whether
    [IF EXISTS] is present, and the name. *)
Definition parse_drop_table (stmt : string) : option (bool * string) :=
  match split stmt with
  | [d; t; name] =>
      if String.eqb (upper d) "DROP" && String.eqb (upper t) "TABLE"
      then Some (false, name) else None
  | [d; t; i; e; name] =>
      if String.eqb (upper d) "DROP" && String.eqb (upper t) "TABLE"
         && String.eqb (upper i) "IF" && String.eqb (upper e) "EXISTS"
      then Some (true, name) else None
  | _ => None
  end.

(** the characters of the class [[A-Za-z0-9_]], written out *)
Definition ident_class : string :=
  "ABCDEFGHIJKLMNOPQRSTUVWXYZabcdefghijklmnopqrstuvwxyz0123456789_".

(** the digits *)
Definition digit_class : string := "0123456789".

(** [raw] starts with a digit *)
Definition leading_digit (raw : string) : Prop :=
  exists c r, raw = String c r /\ c ∈ chars digit_class.

(** [raw] holds a character outside [[A-Za-z0-9_]] *)
Definition outside_class (raw : string) : Prop :=
  exists c, c ∈ chars raw /\ c ∉ chars ident_class.

(** the keywords of the allow-list *)
Definition allowed_keywords : list string := map fst allow_list.

(** the leading keyword of [stmt] is none of the allow-list *)
Definition not_allow_listed (stmt : string) : Prop :=
  (fst (leading_keyword stmt) ∉ allowed_keywords) /\
  (snd (leading_keyword stmt) ∉ allowed_keywords).

(** [stmt] begins, after optional white space and in any case, with [kw] *)
Definition begins_with (kw stmt : string) : Prop :=
  startswith (lstrip (upper stmt)) kw = true.

(** what the store answers to a statement it ran *)
Inductive EngineOutcome :=
| Completed (cols : list string) (rs : list (list Value)) (tbls : gmap string Table)
| Failed (cause : StoreFailure).

Section Layer.

(** The bound of the validator on the length of a name, and its set of
    reserved SQL keywords: the contract names neither. *)
Variable max_identifier_length : nat.
Variable is_reserved_keyword : string -> bool.

(** The relational store on every statement other than [DROP TABLE]: its
    answer and the tables afterwards. *)
Variable sql_engine : gmap string Table -> string -> list (string * Value) -> EngineOutcome.

(** the conditions of the contract, as one decision *)
Definition invalid_reason (raw : string) : option InvalidReason :=
  if negb (truthy raw) then Some IsEmpty
  else if Nat.ltb max_identifier_length (String.length raw) then Some TooLong
  else if negb (forallb is_ident_char (chars raw)) then Some BadCharacter
  else if starts_with_digit raw then Some LeadingDigit
  else if is_reserved_keyword raw then Some ReservedWord
  else None.

(** Modelled from the spec: [validate_identifier(raw, kind)], whose text is
    in [core.sql_security].  It fails when [raw] is empty, exceeds the
    maximum length, holds a character outside [[A-Za-z0-9_]], starts with a
    digit, or is a reserved SQL keyword; otherwise it returns the name as
    an identifier. *)
Definition validate_identifier (raw : string) (kind : IdentifierKind)
  : result SQLSecurityError string :=
  match invalid_reason raw with
  | Some why => Err (InvalidIdentifierError kind raw why)
  | None => Ok raw
  end.

(** [render_go ids pending t]: [pending] is the name of the identifier
    placeholder being read, when the scan is between its braces. *)
Fixpoint render_go (ids : gmap string string) (pending : option string) (t : string)
  : result SQLSecurityError string :=
  match t with
  | EmptyString =>
      match pending with
      | None => Ok EmptyString
      | Some name => Err (UnboundPlaceholderError name)
      end
  | String c r =>
      match pending with
      | None =>
          if Ascii.eqb c "{" then render_go ids (Some EmptyString) r
          else match render_go ids None r with
               | Ok out => Ok (String c out)
               | Err e => Err e
               end
      | Some name =>
          if Ascii.eqb c "}" then
            match ids !! name with
            | None => Err (UnboundPlaceholderError name)
            | Some raw =>
                match invalid_reason raw with
                | Some _ => Err (UnvalidatedIdentifierError name raw)
                | None =>
                    match render_go ids None r with
                    | Ok out => Ok (raw +:+ out)
                    | Err e => Err e
                    end
                end
            end
          else render_go ids (Some (name +:+ String c EmptyString)) r
      end
  end.

(** Modelled from the spec: the Statement Template Engine's [render], whose
    text is in [core.sql_security].  An identifier placeholder is written
    [{name}], as in the template of [delete_table]; it is replaced by its
    binding, which must be a validated identifier.  The value bindings are
    handed on for the store to bind and never enter the text. *)
Definition render (template : string) (ids : gmap string string)
    (values : list (string * Value)) : result SQLSecurityError RenderedStatement :=
  match render_go ids None template with
  | Ok t => Ok {| text := t; params := values |}
  | Err e => Err e
  end.

(** Modelled from the spec: the store running one statement.  Dropping a
    table removes it from the catalog; dropping a missing one fails with
    [NotFoundError] unless [IF EXISTS] is given; a failed statement leaves
    the tables as they were; every statement handed over is journalled. *)
Definition store_execute (st : Store) (r : RenderedStatement) : ExecutionResult * Store :=
  let j := journal st ++ [text r] in
  match parse_drop_table (text r) with
  | Some (if_exists, name) =>
      match tables st !! name with
      | Some _ => (succeeded [] [], {| tables := delete name (tables st); journal := j |})
      | None =>
          if if_exists then (succeeded [] [], {| tables := tables st; journal := j |})
          else (failed NotFoundError, {| tables := tables st; journal := j |})
      end
  | None =>
      match sql_engine (tables st) (text r) (params r) with
      | Completed cols rs tbls => (succeeded cols rs, {| tables := tbls; journal := j |})
      | Failed cause => (failed cause, {| tables := tables st; journal := j |})
      end
  end.

(** Modelled from the spec: [execute_query_safely(conn, template,
    identifier_params, value_params, allow_ddl)], whose text is in
    [core.sql_security]: render, classify, gate, execute.  A validation or
    policy failure is raised and nothing reaches the store. *)
Definition execute_query_safely (st : Store) (template : string)
    (identifier_params : gmap string string) (value_params : list (string * Value))
    (allow_ddl : bool) : result SQLSecurityError ExecutionResult * Store :=
  match render template identifier_params value_params with
  | Err e => (Err e, st)
  | Ok r =>
      match classify (text r) with
      | Err e => (Err e, st)
      | Ok DDL =>
          if allow_ddl
          then let '(res, st') := store_execute st r in (Ok res, st')
          else (Err DdlNotPermittedError, st)
      | Ok READ => let '(res, st') := store_execute st r in (Ok res, st')
      end
  end.

(** Modelled from the spec: [check_table_exists(conn, name)], whose text is
    in [core.sql_security]: a look-up in the catalog; no statement of the
    caller is run. *)
Definition check_table_exists (st : Store) (name : string) : bool :=
  bool_decide (is_Some (tables st !! name)).

End Layer.
End SqlSecurity.

(** ** The request handlers of [app/server/server.py] *)
Module Server.
Import PyStr SqlSecurity.

(** *** Exceptions, the world of a request, and the handler monad *)

(** The exceptions the handlers tell apart: [HTTPException], the security
    layer's [SQLSecurityError], and every other [Exception], kept as its
    class name and its [str(e)]. *)
Inductive Exception :=
| HTTPException (status_code : Z) (detail : string)
| SecurityError (e : SQLSecurityError)
| PyException (cls : string) (message : string).

Inductive Outcome (A : Type) : Type :=
| Returns (a : A)
| Raises (e : Exception).
Arguments Returns {A} a.
Arguments Raises {A} e.

Inductive Level := INFO | ERROR.

Record LogRecord := mkLog { level : Level; message : string }.

(** What a handler can read and change: the store behind
    ["db/database.db"], whether [sqlite3.connect] fails on it (and with
    which message), the lines written through [logger], and how many times
    the clock was read. *)
Record World := mkWorld {
  db : Store;
  connect_failure : option string;
  log : list LogRecord;
  clock_reads : nat
}.

Definition M (A : Type) : Type := World -> Outcome A * World.

Definition ret {A} (a : A) : M A := fun w => (Returns a, w).
Definition raise {A} (e : Exception) : M A := fun w => (Raises e, w).
Definition bind {A B} (m : M A) (k : A -> M B) : M B :=
  fun w => match m w with
           | (Returns a, w') => k a w'
           | (Raises e, w') => (Raises e, w')
           end.

(** [try: body except Exception as e: handler e] *)
Definition try_except {A} (body : M A) (handler : Exception -> M A) : M A :=
  fun w => match body w with
           | (Returns a, w') => (Returns a, w')
           | (Raises e, w') => handler e w'
           end.

Notation "x <- m ;; k" := (bind m (fun x => k))
  (at level 100, m at next level, right associativity).
Notation "m ;;; k" := (bind m (fun _ => k))
  (at level 100, right associativity).

Definition set_log (l : list LogRecord) (w : World) : World :=
  {| db := db w; connect_failure := connect_failure w; log := l; clock_reads := clock_reads w |}.
Definition set_db (s : Store) (w : World) : World :=
  {| db := s; connect_failure := connect_failure w; log := log w; clock_reads := clock_reads w |}.
Definition set_clock_reads (n : nat) (w : World) : World :=
  {| db := db w; connect_failure := connect_failure w; log := log w; clock_reads := n |}.

(** [logger.info(msg)] and [logger.error(msg)] *)
Definition logger_info (msg : string) : M unit :=
  fun w => (Returns tt, set_log (log w ++ [mkLog INFO msg]) w).
Definition logger_error (msg : string) : M unit :=
  fun w => (Returns tt, set_log (log w ++ [mkLog ERROR msg]) w).

(** [sqlite3.connect("db/database.db")] *)
Definition sqlite3_connect : M unit :=
  fun w => match connect_failure w with
           | Some msg => (Raises (PyException "OperationalError" msg), w)
           | None => (Returns tt, w)
           end.

(** [conn.close()] and [conn.commit()]: the statements of the model take
    effect on the store as they run, so neither changes it further. *)
Definition conn_close : M unit := ret tt.
Definition conn_commit : M unit := ret tt.

(** the protocol behind [str(x)] and f-string interpolation *)
Class Str (A : Type) := str_of : A -> string.

(** *** The records of [core.data_models], as the handlers build them *)

(** a row as the handlers pass it on: column name to value *)
Definition Row : Type := list (string * Value).

Module UploadFile.
Record t := mk { filename : option string; content : list ascii }.
End UploadFile.

Module FileUploadResponse.
Record t := mk {
  table_name : string;
  table_schema : list (string * string);
  row_count : Z;
  sample_data : list Row;
  error : option string
}.
End FileUploadResponse.

Module QueryResponse.
Record t := mk {
  sql : string;
  results : list Row;
  columns : list string;
  row_count : nat;
  execution_time_ms : Z;
  error : option string
}.
End QueryResponse.

Module ColumnInfo.
Record t := mk {
  name : string;
  type : string;
  nullable : bool;
  primary_key : bool
}.
End ColumnInfo.

Module TableSchema.
Record t := mk {
  name : string;
  columns : list ColumnInfo.t;
  row_count : Z;
  created_at : Z
}.
End TableSchema.

Module DatabaseSchemaResponse.
Record t := mk {
  tables : list TableSchema.t;
  total_tables : nat;
  error : option string
}.
End DatabaseSchemaResponse.

Module Response.
Record t := mk {
  content : string;
  media_type : string;
  headers : list (string * string)
}.
End Response.

(** the dictionaries the collaborators hand back *)

(** [get_database_schema()]: ['tables'] maps a table name to its
    ['columns'] (name to declared type) and, when present, ['row_count'] *)
Module TableInfo.
Record t := mk { columns : list (string * string); row_count : option Z }.
End TableInfo.

Module SchemaInfo.
Record t := mk { tables : list (string * TableInfo.t) }.
End SchemaInfo.

(** [execute_sql_safely(sql)]: ['results'], ['columns'], ['error'] *)
Module SqlResult.
Record t := mk {
  results : list Row;
  columns : list string;
  error : option string
}.
End SqlResult.

(** [convert_*_to_sqlite(content, table_name)]: ['table_name'],
    ['schema'], ['row_count'], ['sample_data'] *)
Module ConvertResult.
Record t := mk {
  table_name : string;
  schema : list (string * string);
  row_count : Z;
  sample_data : list Row
}.
End ConvertResult.

(** truth value of an [Optional[str]]: [None] and [""] are falsy *)
Definition truthy_opt (o : option string) : bool :=
  match o with
  | Some s => truthy s
  | None => false
  end.

(** [str(o)] for an [Optional[str]] *)
Definition str_opt (o : option string) : string := default "None" o.

Module ExportRequest.
Record t := mk { table_name : string }.
End ExportRequest.

Definition nl : string := String (ascii_of_nat 10) EmptyString.
Definition dquote : string := String (ascii_of_nat 34) EmptyString.

(** the world in which [execute_sql_safely] runs: the clock was read once
    after the SQL was generated *)
Definition after_start (w : World) : World := set_clock_reads (S (clock_reads w)) w.

(** the response of the [try] block for a result without error *)
Definition query_success_response (sql : string) (result : SqlResult.t)
    (execution_time : Z) : QueryResponse.t :=
  {| QueryResponse.sql := sql;
     QueryResponse.results := SqlResult.results result;
     QueryResponse.columns := SqlResult.columns result;
     QueryResponse.row_count := length (SqlResult.results result);
     QueryResponse.execution_time_ms := execution_time;
     QueryResponse.error := None |}.

Section Handlers.

(** the parameters of the security layer *)
Variable max_identifier_length : nat.
Variable is_reserved_keyword : string -> bool.
Variable sql_engine : gmap string Table -> string -> list (string * Value) -> EngineOutcome.

(** [str(e)] of the two exception classes defined outside [server.py] *)
Variable str_HTTPException : Z -> string -> string.
Variable str_SQLSecurityError : SQLSecurityError -> string.

(** [traceback.format_exc()] while [e] is being handled *)
Variable format_exc : Exception -> string.

(** the wall clock: the reading returned by the [k]-th call of
    [datetime.now()], in microseconds *)
Variable clock : nat -> Z.

Context {str_nat : Str nat} {str_Z : Str Z}
        {str_FileUploadResponse : Str FileUploadResponse.t}.

(** the collaborators imported from [core]: they run in the same world and
    may raise *)
Variable QueryRequest : Type.
Variable get_database_schema : M SchemaInfo.t.
Variable generate_sql : QueryRequest -> SchemaInfo.t -> M string.
Variable execute_sql_safely : string -> M SqlResult.t.
Variable generate_csv_from_table : string -> M string.
Variable generate_json_from_table : string -> M string.

(** the converters imported from [core.file_processor]: content and table
    name to the dictionary of the new table *)
Variable convert_csv_to_sqlite : list ascii -> string -> M ConvertResult.t.
Variable convert_json_to_sqlite : list ascii -> string -> M ConvertResult.t.
Variable convert_jsonl_to_sqlite : list ascii -> string -> M ConvertResult.t.

(** [str(e)] *)
Definition exc_str (e : Exception) : string :=
  match e with
  | HTTPException status_code detail => str_HTTPException status_code detail
  | SecurityError se => str_SQLSecurityError se
  | PyException _ msg => msg
  end.

(** [datetime.now()] *)
Definition datetime_now : M Z :=
  fun w => (Returns (clock (clock_reads w)), set_clock_reads (S (clock_reads w)) w).

(** the calls into the security layer, on the connection of the request *)
Definition call_validate_identifier (raw : string) (kind : IdentifierKind) : M string :=
  fun w => match validate_identifier max_identifier_length is_reserved_keyword raw kind with
           | Ok i => (Returns i, w)
           | Err e => (Raises (SecurityError e), w)
           end.

Definition call_check_table_exists (name : string) : M bool :=
  fun w => (Returns (check_table_exists (db w) name), w).

Definition call_execute_query_safely (template : string)
    (identifier_params : gmap string string) (value_params : list (string * Value))
    (allow_ddl : bool) : M ExecutionResult :=
  fun w =>
    match execute_query_safely max_identifier_length is_reserved_keyword sql_engine
            (db w) template identifier_params value_params allow_ddl with
    | (Ok r, st) => (Returns r, set_db st w)
    | (Err e, st) => (Raises (SecurityError e), set_db st w)
    end.

(** *** [upload_file] *)

(** [file.filename.rsplit('.', 1)[0].lower().replace(' ', '_')] *)
Definition derive_table_name (filename : string) : string :=
  replace_char " " "_" (lower (rsplit1_head "." filename)).

(** [file.filename.<method>]: an [UploadFile] may have no filename *)
Definition get_filename (file : UploadFile.t) : M string :=
  match UploadFile.filename file with
  | Some f => ret f
  | None => raise (PyException "AttributeError"
                     "'NoneType' object has no attribute 'endswith'")
  end.

(** the [try] block of [upload_file] *)
Definition upload_file_try (file : UploadFile.t) : M FileUploadResponse.t :=
  filename <- get_filename file ;;
  if negb (endswith_any filename [".csv"; ".json"; ".jsonl"]) then
    raise (HTTPException 400 "Only .csv, .json, and .jsonl files are supported")
  else
    let table_name := derive_table_name filename in
    let content := UploadFile.content file in
    result <- (if endswith filename ".csv" then
                 convert_csv_to_sqlite content table_name
               else if endswith filename ".jsonl" then
                 convert_jsonl_to_sqlite content table_name
               else
                 convert_json_to_sqlite content table_name) ;;
    let response :=
      {| FileUploadResponse.table_name := ConvertResult.table_name result;
         FileUploadResponse.table_schema := ConvertResult.schema result;
         FileUploadResponse.row_count := ConvertResult.row_count result;
         FileUploadResponse.sample_data := ConvertResult.sample_data result;
         FileUploadResponse.error := None |} in
    logger_info ("[SUCCESS] File upload: " +:+ str_of response) ;;;
    ret response.

(** the response of the [except] block of [upload_file] *)
Definition upload_error_response (e : Exception) : FileUploadResponse.t :=
  {| FileUploadResponse.table_name := "";
     FileUploadResponse.table_schema := [];
     FileUploadResponse.row_count := 0;
     FileUploadResponse.sample_data := [];
     FileUploadResponse.error := Some (exc_str e) |}.

Definition upload_file (file : UploadFile.t) : M FileUploadResponse.t :=
  try_except (upload_file_try file)
    (fun e =>
       logger_error ("[ERROR] File upload failed: " +:+ exc_str e) ;;;
       logger_error ("[ERROR] Full traceback:" +:+ nl +:+ format_exc e) ;;;
       ret (upload_error_response e)).

(** *** [process_natural_language_query] *)

(** the [try] block *)
Definition process_natural_language_query_try (request : QueryRequest)
  : M QueryResponse.t :=
  schema_info <- get_database_schema ;;
  sql <- generate_sql request schema_info ;;
  start_time <- datetime_now ;;
  result <- execute_sql_safely sql ;;
  end_time <- datetime_now ;;
  let execution_time := (end_time - start_time)%Z in
  if truthy_opt (SqlResult.error result) then
    raise (PyException "Exception" (str_opt (SqlResult.error result)))
  else
    let response :=
      {| QueryResponse.sql := sql;
         QueryResponse.results := SqlResult.results result;
         QueryResponse.columns := SqlResult.columns result;
         QueryResponse.row_count := length (SqlResult.results result);
         QueryResponse.execution_time_ms := execution_time;
         QueryResponse.error := None |} in
    logger_info ("[SUCCESS] Query processed: SQL=" +:+ sql +:+ ", rows="
                 +:+ str_of (length (SqlResult.results result))
                 +:+ ", time=" +:+ str_of execution_time +:+ "ms") ;;;
    ret response.

(** the response of the [except] block *)
Definition query_error_response (e : Exception) : QueryResponse.t :=
  {| QueryResponse.sql := "";
     QueryResponse.results := [];
     QueryResponse.columns := [];
     QueryResponse.row_count := 0;
     QueryResponse.execution_time_ms := 0;
     QueryResponse.error := Some (exc_str e) |}.

Definition process_natural_language_query (request : QueryRequest)
  : M QueryResponse.t :=
  try_except (process_natural_language_query_try request)
    (fun e =>
       logger_error ("[ERROR] Query processing failed: " +:+ exc_str e) ;;;
       logger_error ("[ERROR] Full traceback:" +:+ nl +:+ format_exc e) ;;;
       ret (query_error_response e)).

(** *** [get_database_schema_endpoint] *)

(** the inner loop: one [ColumnInfo] per column of the table *)
Definition column_infos (cols : list (string * string)) : list ColumnInfo.t :=
  map (fun '(col_name, col_type) =>
         {| ColumnInfo.name := col_name;
            ColumnInfo.type := col_type;
            ColumnInfo.nullable := true;
            ColumnInfo.primary_key := false |}) cols.

(** the [TableSchema] built for the [i]-th table when the loop starts with
    [n] readings of the clock behind it *)
Definition table_schema_at (n i : nat) (item : string * TableInfo.t) : TableSchema.t :=
  {| TableSchema.name := fst item;
     TableSchema.columns := column_infos (TableInfo.columns (snd item));
     TableSchema.row_count := default 0%Z (TableInfo.row_count (snd item));
     TableSchema.created_at := clock (n + i) |}.

(** the outer loop over [schema['tables'].items()] *)
Fixpoint table_schemas (items : list (string * TableInfo.t)) : M (list TableSchema.t) :=
  match items with
  | [] => ret []
  | (table_name, table_info) :: rest =>
      let columns := column_infos (TableInfo.columns table_info) in
      created_at <- datetime_now ;;
      more <- table_schemas rest ;;
      ret ({| TableSchema.name := table_name;
              TableSchema.columns := columns;
              TableSchema.row_count := default 0%Z (TableInfo.row_count table_info);
              TableSchema.created_at := created_at |} :: more)
  end.

Definition get_database_schema_endpoint : M DatabaseSchemaResponse.t :=
  try_except
    (schema <- get_database_schema ;;
     tables <- table_schemas (SchemaInfo.tables schema) ;;
     let response :=
       {| DatabaseSchemaResponse.tables := tables;
          DatabaseSchemaResponse.total_tables := length tables;
          DatabaseSchemaResponse.error := None |} in
     logger_info ("[SUCCESS] Schema retrieved: " +:+ str_of (length tables) +:+ " tables") ;;;
     ret response)
    (fun e =>
       logger_error ("[ERROR] Schema retrieval failed: " +:+ exc_str e) ;;;
       logger_error ("[ERROR] Full traceback:" +:+ nl +:+ format_exc e) ;;;
       ret {| DatabaseSchemaResponse.tables := [];
              DatabaseSchemaResponse.total_tables := 0;
              DatabaseSchemaResponse.error := Some (exc_str e) |}).

(** *** [delete_table] *)

Definition not_found_detail (table_name : string) : string :=
  "Table '" +:+ table_name +:+ "' not found".

(** the [try] block of [delete_table] *)
Definition delete_table_try (table_name : string) : M (list (string * string)) :=
  try_except (call_validate_identifier table_name KTable)
    (fun e => match e with
              | SecurityError _ => raise (HTTPException 400 (exc_str e))
              | _ => raise e
              end) ;;;
  sqlite3_connect ;;;
  found <- call_check_table_exists table_name ;;
  if negb found then
    conn_close ;;;
    raise (HTTPException 404 (not_found_detail table_name))
  else
    call_execute_query_safely "DROP TABLE IF EXISTS {table}"
      {[ "table" := table_name ]} [] true ;;;
    conn_commit ;;;
    conn_close ;;;
    let response := [("message", "Table '" +:+ table_name +:+ "' deleted successfully")] in
    logger_info ("[SUCCESS] Table deleted: " +:+ table_name) ;;;
    ret response.

Definition delete_table (table_name : string) : M (list (string * string)) :=
  try_except (delete_table_try table_name)
    (fun e => match e with
              | HTTPException _ _ => raise e
              | _ =>
                  logger_error ("[ERROR] Table deletion failed: " +:+ exc_str e) ;;;
                  logger_error ("[ERROR] Full traceback:" +:+ nl +:+ format_exc e) ;;;
                  raise (HTTPException 500 ("Error deleting table: " +:+ exc_str e))
              end).

(** *** [export_table] and [export_table_json] *)

Definition attachment (file_name : string) : list (string * string) :=
  [("Content-Disposition", "attachment; filename=" +:+ dquote +:+ file_name +:+ dquote)].

(** the [try] block of [export_table] *)
Definition export_table_try (request : ExportRequest.t) : M Response.t :=
  let table_name := ExportRequest.table_name request in
  call_validate_identifier table_name KTable ;;;
  sqlite3_connect ;;;
  found <- call_check_table_exists table_name ;;
  if negb found then
    conn_close ;;;
    raise (HTTPException 404 (not_found_detail table_name))
  else
    csv_data <- generate_csv_from_table table_name ;;
    conn_close ;;;
    ret {| Response.content := csv_data;
           Response.media_type := "text/csv";
           Response.headers := attachment (table_name +:+ "_export.csv") |}.

Definition export_table (request : ExportRequest.t) : M Response.t :=
  try_except (export_table_try request)
    (fun e => match e with
              | HTTPException _ _ => raise e
              | _ =>
                  logger_error ("[ERROR] Table export failed: " +:+ exc_str e) ;;;
                  logger_error ("[ERROR] Full traceback:" +:+ nl +:+ format_exc e) ;;;
                  raise (HTTPException 500 ("Error exporting table: " +:+ exc_str e))
              end).

(** the [try] block of [export_table_json] *)
Definition export_table_json_try (request : ExportRequest.t) : M Response.t :=
  let table_name := ExportRequest.table_name request in
  call_validate_identifier table_name KTable ;;;
  sqlite3_connect ;;;
  found <- call_check_table_exists table_name ;;
  if negb found then
    conn_close ;;;
    raise (HTTPException 404 (not_found_detail table_name))
  else
    json_data <- generate_json_from_table table_name ;;
    conn_close ;;;
    ret {| Response.content := json_data;
           Response.media_type := "application/json";
           Response.headers := attachment (table_name +:+ "_export.json") |}.

(** [export_table_json] has the one [except Exception] clause *)
Definition export_table_json (request : ExportRequest.t) : M Response.t :=
  try_except (export_table_json_try request)
    (fun e =>
       logger_error ("[ERROR] Table JSON export failed: " +:+ exc_str e) ;;;
       logger_error ("[ERROR] Full traceback:" +:+ nl +:+ format_exc e) ;;;
       raise (HTTPException 500 ("Error exporting table as JSON: " +:+ exc_str e))).

End Handlers.
End Server.

(** ** A sample deployment

    Concrete values for what the handlers leave open, used to run them on
    concrete requests. *)
Module Sample.
Import PyStr SqlSecurity Server.

Definition max_identifier_length : nat := 64.

Definition is_reserved_keyword (s : string) : bool :=
  bool_decide (upper s ∈ ["SELECT"; "INSERT"; "UPDATE"; "DELETE"; "DROP"; "CREATE";
                          "ALTER"; "TABLE"; "FROM"; "WHERE"; "WITH"]).

(** a store that completes every statement with no rows *)
Definition sql_engine (tbls : gmap string Table) (stmt : string)
    (values : list (string * Value)) : EngineOutcome :=
  Completed [] [] tbls.


(** [HTTPException.__str__] of the framework: ["{status_code}: {detail}"] *)
Definition str_HTTPException (status_code : Z) (detail : string) : string :=
  pretty status_code +:+ ": " +:+ detail.

Definition str_SQLSecurityError (e : SQLSecurityError) : string :=
  match e with
  | InvalidIdentifierError _ raw _ => "Invalid identifier: " +:+ raw
  | UnboundPlaceholderError name => "Unbound placeholder: " +:+ name
  | UnvalidatedIdentifierError name _ => "Unvalidated identifier for: " +:+ name
  | RejectedStatementError => "Statement rejected"
  | DdlNotPermittedError => "DDL operations are not allowed"
  end.

Definition format_exc (e : Exception) : string :=
  "Traceback (most recent call last): File /srv/app/server/server.py".

(** one reading per millisecond *)
Definition clock (k : nat) : Z := (1762246800000000 + 1000 * Z.of_nat k)%Z.

#[global] Instance str_nat : Str nat := pretty.
#[global] Instance str_Z : Str Z := pretty.
#[global] Instance str_FileUploadResponse : Str FileUploadResponse.t :=
  fun r => "table_name='" +:+ FileUploadResponse.table_name r +:+ "'".

Definition orders : Table :=
  {| t_columns := [("id", "INTEGER"); ("total", "REAL")];
     t_rows := [[VInt 1; VReal 0]] |}.

Definition store : Store :=
  {| tables := {[ "orders" := orders ]}; journal := [] |}.

Definition world : World :=
  {| db := store; connect_failure := None; log := []; clock_reads := 0 |}.

(** the same store when the database file cannot be opened *)
Definition world_unavailable : World :=
  {| db := store; connect_failure := Some "unable to open database file";
     log := []; clock_reads := 0 |}.

Definition schema : SchemaInfo.t :=
  {| SchemaInfo.tables :=
       [("orders", {| TableInfo.columns := [("id", "INTEGER"); ("total", "REAL")];
                      TableInfo.row_count := Some 1%Z |});
        ("drafts", {| TableInfo.columns := [("note", "TEXT")];
                      TableInfo.row_count := None |})] |}.

Definition get_database_schema : M SchemaInfo.t := ret schema.

(** a generator that answers with the question itself *)
Definition generate_sql (request : string) (schema_info : SchemaInfo.t) : M string :=
  ret request.

(** an executor that knows one query, lets the store's exception escape on
    another, and reports an error in its result on every other *)
Definition execute_sql_safely (sql : string) : M SqlResult.t :=
  if String.eqb sql "SELECT id FROM orders" then
    ret {| SqlResult.results := [[("id", VInt 1)]];
           SqlResult.columns := ["id"];
           SqlResult.error := None |}
  else if String.eqb sql "SELECT ssn FROM orders" then
    raise (PyException "OperationalError" "no such column: ssn")
  else
    ret {| SqlResult.results := [];
           SqlResult.columns := [];
           SqlResult.error := Some "Only SELECT statements are allowed" |}.

Definition generate_csv_from_table (table_name : string) : M string := ret "id,total".
Definition generate_json_from_table (table_name : string) : M string := ret "[]".

(** a converter that creates the table under the name it is given *)
Definition create_table_as_named (content : list ascii) (table_name : string)
  : M ConvertResult.t :=
  fun w =>
    (Returns {| ConvertResult.table_name := table_name;
                ConvertResult.schema := [];
                ConvertResult.row_count := 0;
                ConvertResult.sample_data := [] |},
     set_db {| tables := <[ table_name := mkTable [] [] ]> (tables (db w));
               journal := journal (db w) ++ ["CREATE TABLE " +:+ table_name] |} w).

Definition convert_csv_to_sqlite := create_table_as_named.
Definition convert_json_to_sqlite := create_table_as_named.
Definition convert_jsonl_to_sqlite := create_table_as_named.

Definition delete_table :=
  Server.delete_table max_identifier_length is_reserved_keyword sql_engine
    str_HTTPException str_SQLSecurityError format_exc.
Definition upload_file :=
  Server.upload_file str_HTTPException str_SQLSecurityError format_exc
    convert_csv_to_sqlite convert_json_to_sqlite convert_jsonl_to_sqlite.
Definition process_natural_language_query :=
  Server.process_natural_language_query str_HTTPException str_SQLSecurityError
    format_exc clock string get_database_schema generate_sql execute_sql_safely.
Definition get_database_schema_endpoint :=
  Server.get_database_schema_endpoint str_HTTPException str_SQLSecurityError
    format_exc clock get_database_schema.
Definition export_table :=
  Server.export_table max_identifier_length is_reserved_keyword
    str_HTTPException str_SQLSecurityError format_exc generate_csv_from_table.
Definition export_table_json :=
  Server.export_table_json max_identifier_length is_reserved_keyword
    str_HTTPException str_SQLSecurityError format_exc generate_json_from_table.

End Sample.

(** ** The other request handlers of [app/server/server.py] *)
Module ServerRest.
Import PyStr SqlSecurity Server.

Module InsightsRequest.
Record t := mk { table_name : string; column_names : option (list string) }.
End InsightsRequest.

Module InsightsResponse.
Record t (Insight : Type) := mk {
  table_name : string;
  insights : list Insight;
  generated_at : Z;
  error : option string
}.
Arguments mk {Insight}.
Arguments table_name {Insight}.
Arguments insights {Insight}.
Arguments generated_at {Insight}.
Arguments error {Insight}.
End InsightsResponse.

Module RandomQueryResponse.
Record t := mk { query : string; error : option string }.
End RandomQueryResponse.

(** [uptime_seconds] is a difference of two readings of the clock, in the
    unit of the clock *)
Module HealthCheckResponse.
Record t := mk {
  status : string;
  database_connected : bool;
  tables_count : nat;
  uptime_seconds : Z
}.
End HealthCheckResponse.

Module QueryExportRequest.
Record t := mk { data : list Row; columns : list string }.
End QueryExportRequest.

Module DataGenerationRequest.
Record t := mk { table_name : string }.
End DataGenerationRequest.

Module DataGenerationResponse.
Record t := mk {
  success : bool;
  rows_generated : nat;
  message : string;
  error : option string
}.
End DataGenerationResponse.

(** [not schema_info.get('tables')]: an empty dictionary of tables is falsy *)
Definition no_tables (schema_info : SchemaInfo.t) : bool :=
  match SchemaInfo.tables schema_info with
  | [] => true
  | _ :: _ => false
  end.

(** the response of the [except] block of [health_check] *)
Definition health_error_response : HealthCheckResponse.t :=
  {| HealthCheckResponse.status := "error";
     HealthCheckResponse.database_connected := false;
     HealthCheckResponse.tables_count := 0;
     HealthCheckResponse.uptime_seconds := 0 |}.

(** the file names the upload accepts: a stem followed by one of the three
    extensions, in this very case *)
Definition supported_name (filename : string) : Prop :=
  exists stem ext, ext ∈ [".csv"; ".json"; ".jsonl"] /\ filename = stem +:+ ext.

(** the answer of [upload_file] built from the dictionary of a converter *)
Definition upload_response (result : ConvertResult.t) : FileUploadResponse.t :=
  {| FileUploadResponse.table_name := ConvertResult.table_name result;
     FileUploadResponse.table_schema := ConvertResult.schema result;
     FileUploadResponse.row_count := ConvertResult.row_count result;
     FileUploadResponse.sample_data := ConvertResult.sample_data result;
     FileUploadResponse.error := None |}.

Section RestHandlers.

Variable max_identifier_length : nat.
Variable is_reserved_keyword : string -> bool.
Variable str_HTTPException : Z -> string -> string.
Variable str_SQLSecurityError : SQLSecurityError -> string.
Variable format_exc : Exception -> string.
Variable clock : nat -> Z.

(** [app_start_time], read once when the module is loaded *)
Variable app_start_time : Z.

Context {str_nat : Str nat} {str_Z : Str Z}.

(** the collaborators imported from [core] and from [sqlite3]: they run in
    the same world and may raise *)
Variable Insight : Type.
Variable generate_insights : string -> option (list string) -> M (list Insight).
Variable get_database_schema : M SchemaInfo.t.
Variable generate_random_query : SchemaInfo.t -> M string.
Variable generate_csv_from_data : list Row -> list string -> M string.
Variable generate_json_from_data : list Row -> list string -> M string.
Variable generate_table_data : string -> M DataGenerationResponse.t.

(** [cursor.execute(sql)] followed by [cursor.fetchall()] on the connection
    of the request *)
Variable cursor_fetchall : string -> M (list (list Value)).

Local Abbreviation exc_str := (exc_str str_HTTPException str_SQLSecurityError).
Local Abbreviation datetime_now := (datetime_now clock).
Local Abbreviation call_validate_identifier :=
  (call_validate_identifier max_identifier_length is_reserved_keyword).

(** *** [generate_insights_endpoint] *)

Definition generate_insights_endpoint (request : InsightsRequest.t)
  : M (InsightsResponse.t Insight) :=
  try_except
    (insights <- generate_insights (InsightsRequest.table_name request)
                   (InsightsRequest.column_names request) ;;
     generated_at <- datetime_now ;;
     let response :=
       {| InsightsResponse.table_name := InsightsRequest.table_name request;
          InsightsResponse.insights := insights;
          InsightsResponse.generated_at := generated_at;
          InsightsResponse.error := None |} in
     logger_info ("[SUCCESS] Insights generated for table: "
                  +:+ InsightsRequest.table_name request
                  +:+ ", insights count: " +:+ str_of (length insights)) ;;;
     ret response)
    (fun e =>
       logger_error ("[ERROR] Insights generation failed: " +:+ exc_str e) ;;;
       logger_error ("[ERROR] Full traceback:" +:+ nl +:+ format_exc e) ;;;
       generated_at <- datetime_now ;;
       ret {| InsightsResponse.table_name := InsightsRequest.table_name request;
              InsightsResponse.insights := [];
              InsightsResponse.generated_at := generated_at;
              InsightsResponse.error := Some (exc_str e) |}).

(** *** [generate_random_query_endpoint] *)

Definition generate_random_query_endpoint : M RandomQueryResponse.t :=
  try_except
    (schema_info <- get_database_schema ;;
     if no_tables schema_info then
       ret {| RandomQueryResponse.query :=
                "Please upload some data first to generate queries.";
              RandomQueryResponse.error := Some "No tables found in database" |}
     else
       random_query <- generate_random_query schema_info ;;
       let response := {| RandomQueryResponse.query := random_query;
                          RandomQueryResponse.error := None |} in
       logger_info ("[SUCCESS] Random query generated: " +:+ random_query) ;;;
       ret response)
    (fun e =>
       logger_error ("[ERROR] Random query generation failed: " +:+ exc_str e) ;;;
       logger_error ("[ERROR] Full traceback:" +:+ nl +:+ format_exc e) ;;;
       ret {| RandomQueryResponse.query :=
                "Could not generate a random query. Please try again.";
              RandomQueryResponse.error := Some (exc_str e) |}).

(** *** [health_check] *)

(** the [try] block of [health_check] *)
Definition health_check_try : M HealthCheckResponse.t :=
  sqlite3_connect ;;;
  tables <- cursor_fetchall "SELECT name FROM sqlite_master WHERE type='table'" ;;
  conn_close ;;;
  now <- datetime_now ;;
  let uptime := (now - app_start_time)%Z in
  let response :=
    {| HealthCheckResponse.status := "ok";
       HealthCheckResponse.database_connected := true;
       HealthCheckResponse.tables_count := length tables;
       HealthCheckResponse.uptime_seconds := uptime |} in
  logger_info ("[SUCCESS] Health check: OK, " +:+ str_of (length tables)
               +:+ " tables, uptime: " +:+ str_of uptime +:+ "s") ;;;
  ret response.

Definition health_check : M HealthCheckResponse.t :=
  try_except health_check_try
    (fun e =>
       logger_error ("[ERROR] Health check failed: " +:+ exc_str e) ;;;
       logger_error ("[ERROR] Full traceback:" +:+ nl +:+ format_exc e) ;;;
       ret health_error_response).

(** *** [export_query_results] and [export_query_results_json] *)

Definition export_query_results (request : QueryExportRequest.t) : M Response.t :=
  try_except
    (csv_data <- generate_csv_from_data (QueryExportRequest.data request)
                   (QueryExportRequest.columns request) ;;
     ret {| Response.content := csv_data;
            Response.media_type := "text/csv";
            Response.headers := attachment "query_results.csv" |})
    (fun e =>
       logger_error ("[ERROR] Query export failed: " +:+ exc_str e) ;;;
       logger_error ("[ERROR] Full traceback:" +:+ nl +:+ format_exc e) ;;;
       raise (HTTPException 500 ("Error exporting query results: " +:+ exc_str e))).

Definition export_query_results_json (request : QueryExportRequest.t) : M Response.t :=
  try_except
    (json_data <- generate_json_from_data (QueryExportRequest.data request)
                    (QueryExportRequest.columns request) ;;
     ret {| Response.content := json_data;
            Response.media_type := "application/json";
            Response.headers := attachment "query_results.json" |})
    (fun e =>
       logger_error ("[ERROR] Query JSON export failed: " +:+ exc_str e) ;;;
       logger_error ("[ERROR] Full traceback:" +:+ nl +:+ format_exc e) ;;;
       raise (HTTPException 500
                ("Error exporting query results as JSON: " +:+ exc_str e))).

(** *** [generate_data_endpoint] *)

(** the [try] block of [generate_data_endpoint] *)
Definition generate_data_try (request : DataGenerationRequest.t)
  : M DataGenerationResponse.t :=
  let table_name := DataGenerationRequest.table_name request in
  try_except (call_validate_identifier table_name KTable)
    (fun e => match e with
              | SecurityError _ => raise (HTTPException 400 (exc_str e))
              | _ => raise e
              end) ;;;
  sqlite3_connect ;;;
  found <- call_check_table_exists table_name ;;
  if negb found then
    conn_close ;;;
    raise (HTTPException 404 (not_found_detail table_name))
  else
    response <- generate_table_data table_name ;;
    conn_close ;;;
    logger_info ("[SUCCESS] Data generation for table '" +:+ table_name +:+ "': "
                 +:+ DataGenerationResponse.message response) ;;;
    ret response.

Definition generate_data_endpoint (request : DataGenerationRequest.t)
  : M DataGenerationResponse.t :=
  try_except (generate_data_try request)
    (fun e => match e with
              | HTTPException _ _ => raise e
              | _ =>
                  logger_error ("[ERROR] Data generation failed for table '"
                                +:+ DataGenerationRequest.table_name request
                                +:+ "': " +:+ exc_str e) ;;;
                  logger_error ("[ERROR] Full traceback:" +:+ nl +:+ format_exc e) ;;;
                  ret {| DataGenerationResponse.success := false;
                         DataGenerationResponse.rows_generated := 0;
                         DataGenerationResponse.message :=
                           "Error generating data: " +:+ exc_str e;
                         DataGenerationResponse.error := Some (exc_str e) |}
              end).

End RestHandlers.
End ServerRest.

(** ** The sample deployment, for the other handlers *)
Module SampleRest.
Import PyStr SqlSecurity Server ServerRest.

Definition app_start_time : Z := 1762246000000000%Z.

(** one insight per requested column: its name *)
Definition generate_insights (table_name : string) (column_names : option (list string))
  : M (list string) :=
  if String.eqb table_name "orders" then ret (default ["id"; "total"] column_names)
  else raise (PyException "Exception" ("Table '" +:+ table_name +:+ "' does not exist")).

Definition no_schema : M SchemaInfo.t := ret {| SchemaInfo.tables := [] |}.

Definition generate_random_query (schema_info : SchemaInfo.t) : M string :=
  ret "How many orders are there?".

Definition generate_csv_from_data (data : list Row) (columns : list string) : M string :=
  match columns with
  | [] => raise (PyException "ValueError" "no columns")
  | c :: _ => ret c
  end.

Definition generate_json_from_data (data : list Row) (columns : list string) : M string :=
  match columns with
  | [] => raise (PyException "ValueError" "no columns")
  | _ :: _ => ret "[]"
  end.

Definition generate_table_data (table_name : string) : M DataGenerationResponse.t :=
  ret {| DataGenerationResponse.success := true;
         DataGenerationResponse.rows_generated := 10;
         DataGenerationResponse.message := "Generated 10 rows";
         DataGenerationResponse.error := None |}.

(** the look-up answers with one row per table of the catalog *)
Definition cursor_fetchall (sql : string) : M (list (list Value)) :=
  fun w => (Returns (map (fun name => [VText name]) (elements (dom (tables (db w))))), w).

Definition generate_insights_endpoint :=
  ServerRest.generate_insights_endpoint Sample.str_HTTPException
    Sample.str_SQLSecurityError Sample.format_exc Sample.clock string generate_insights.
Definition generate_random_query_endpoint (schema_reader : M SchemaInfo.t) :=
  ServerRest.generate_random_query_endpoint Sample.str_HTTPException
    Sample.str_SQLSecurityError Sample.format_exc schema_reader generate_random_query.
Definition health_check :=
  ServerRest.health_check Sample.str_HTTPException Sample.str_SQLSecurityError
    Sample.format_exc Sample.clock app_start_time cursor_fetchall.
Definition export_query_results :=
  ServerRest.export_query_results Sample.str_HTTPException Sample.str_SQLSecurityError
    Sample.format_exc generate_csv_from_data.
Definition export_query_results_json :=
  ServerRest.export_query_results_json Sample.str_HTTPException
    Sample.str_SQLSecurityError Sample.format_exc generate_json_from_data.
Definition generate_data_endpoint :=
  ServerRest.generate_data_endpoint Sample.max_identifier_length
    Sample.is_reserved_keyword Sample.str_HTTPException Sample.str_SQLSecurityError
    Sample.format_exc generate_table_data.
Definition upload_file_try :=
  Server.upload_file_try Sample.convert_csv_to_sqlite Sample.convert_json_to_sqlite
    Sample.convert_jsonl_to_sqlite.
Definition call_validate_identifier :=
  Server.call_validate_identifier Sample.max_identifier_length
    Sample.is_reserved_keyword.

End SampleRest.

(** * Properties *)

(** ** Facts about the [str] operations *)
Module PyStrFacts.
Import PyStr.

Lemma chars_app (s t : string) : chars (s +:+ t) = chars s ++ chars t.
Proof.
  induction s as [|c s IH]; [reflexivity|].
  change (String c s +:+ t) with (String c (s +:+ t)). simpl. now rewrite IH.
Qed.

Lemma truthy_false_iff (s : string) : truthy s = false <-> s = "".
Proof. destruct s; simpl; split; intros; congruence. Qed.

Lemma app_cons (c : ascii) (a b : string) : String c a +:+ b = String c (a +:+ b).
Proof. reflexivity. Qed.

Lemma app_empty_r (a : string) : a +:+ "" = a.
Proof. induction a as [|c a IH]; [reflexivity | now rewrite app_cons, IH]. Qed.

Lemma app_snoc (c : ascii) (a b : string) :
  (a +:+ String c EmptyString) +:+ b = a +:+ String c b.
Proof. induction a as [|x a IH]; [reflexivity | now rewrite !app_cons, IH]. Qed.

(** [split] of a run of characters none of which is white space *)
Lemma split_go_word (t : string) (cur : option string) :
  forallb (fun c => negb (is_space c)) (chars t) = true ->
  split_go cur t = option_list
    (match cur, t with
     | None, EmptyString => None
     | _, _ => Some (default EmptyString cur +:+ t)
     end).
Proof.
  revert cur. induction t as [|c t IH]; intros cur H.
  - destruct cur as [s|]; simpl; [|reflexivity]. now rewrite app_empty_r.
  - simpl in H. apply andb_true_iff in H as [Hc Ht].
    apply negb_true_iff in Hc. simpl. rewrite Hc.
    rewrite (IH _ Ht). simpl. rewrite app_snoc.
    destruct t; destruct cur; reflexivity.
Qed.

End PyStrFacts.

(** ** Facts about the security layer *)
Module SqlSecurityFacts.
Import PyStr PyStrFacts SqlSecurity.
Local Arguments String.append !_ _ /.

Lemma is_ident_char_class (c : ascii) :
  is_ident_char c = bool_decide (c ∈ chars ident_class).
Proof. destruct c as [[] [] [] [] [] [] [] []]; vm_compute; reflexivity. Qed.

Lemma is_digit_class (c : ascii) :
  is_digit c = bool_decide (c ∈ chars digit_class).
Proof. destruct c as [[] [] [] [] [] [] [] []]; vm_compute; reflexivity. Qed.

Lemma starts_with_digit_iff (raw : string) :
  starts_with_digit raw = true <-> leading_digit raw.
Proof.
  unfold leading_digit. destruct raw as [|c r]; simpl.
  - split; [discriminate | intros (c & r & H & _); discriminate].
  - rewrite is_digit_class, bool_decide_eq_true. split.
    + intros H. exists c, r. split; [reflexivity | exact H].
    + intros (c' & r' & [= -> ->] & H). exact H.
Qed.

Lemma ident_char_not_space (c : ascii) :
  is_ident_char c = true -> is_space c = false.
Proof. destruct c as [[] [] [] [] [] [] [] []]; vm_compute; congruence. Qed.

Lemma ident_char_not_separator (c : ascii) :
  is_ident_char c = true -> Ascii.eqb separator c = false.
Proof. destruct c as [[] [] [] [] [] [] [] []]; vm_compute; congruence. Qed.

Lemma forallb_not_ident_iff (raw : string) :
  forallb is_ident_char (chars raw) = false <-> outside_class raw.
Proof.
  unfold outside_class. split.
  - intros H. induction (chars raw) as [|c l IH]; simpl in H; [discriminate|].
    apply andb_false_iff in H as [H|H].
    + exists c. split; [constructor|].
      rewrite is_ident_char_class in H. now apply bool_decide_eq_false in H.
    + destruct (IH H) as (x & Hx & Hout). exists x. split; [now constructor | exact Hout].
  - intros (c & Hin & Hout).
    destruct (forallb is_ident_char (chars raw)) eqn:E; [|reflexivity].
    rewrite forallb_forall in E. apply list_elem_of_In in Hin.
    specialize (E c Hin). rewrite is_ident_char_class in E.
    apply bool_decide_eq_true in E. contradiction.
Qed.

Lemma ident_chars_no_separator (t : string) :
  forallb is_ident_char (chars t) = true -> has_separator t = false.
Proof.
  unfold has_separator, contains_char.
  induction (chars t) as [|c l IH]; [reflexivity|].
  intros [Hc Hl]%andb_true_iff.
  change (Ascii.eqb separator c || existsb (Ascii.eqb separator) l = false).
  now rewrite (ident_char_not_separator c Hc), (IH Hl).
Qed.

Lemma ident_chars_no_space (t : string) :
  forallb is_ident_char (chars t) = true ->
  forallb (fun c => negb (is_space c)) (chars t) = true.
Proof.
  induction (chars t) as [|c l IH]; [reflexivity|].
  intros [Hc Hl]%andb_true_iff.
  change (negb (is_space c) && forallb (fun c => negb (is_space c)) l = true).
  now rewrite (ident_char_not_space c Hc), (IH Hl).
Qed.

Lemma startswith_app (s p : string) :
  startswith s p = true -> exists r, s = p +:+ r.
Proof.
  revert s. induction p as [|a p IH]; intros s H.
  - exists s. reflexivity.
  - destruct s as [|b s]; simpl in H; [discriminate|].
    apply andb_true_iff in H as [Hab Hp]. apply Ascii.eqb_eq in Hab. subst b.
    destruct (IH s Hp) as [r ->]. exists r. reflexivity.
Qed.

(** *** The Policy Gate *)

Lemma classify_separator (stmt : string) :
  has_separator stmt = true -> classify stmt = Err RejectedStatementError.
Proof. intros H. unfold classify. now rewrite H. Qed.

Lemma classify_not_allow_listed (stmt : string) :
  not_allow_listed stmt -> classify stmt = Err RejectedStatementError.
Proof.
  intros [Hw Hww]. unfold classify.
  destruct (has_separator stmt); [reflexivity|].
  destruct (find (keyword_matches stmt) allow_list) as [[kw cls]|] eqn:E; [|reflexivity].
  exfalso. apply find_some in E as [Hin Hm].
  assert (Hkw : kw ∈ allowed_keywords).
  { unfold allowed_keywords. apply list_elem_of_In, in_map_iff.
    exists (kw, cls). split; [reflexivity | exact Hin]. }
  unfold keyword_matches in Hm. destruct (leading_keyword stmt) as [w ww].
  simpl in *. apply orb_true_iff in Hm as [Hm|Hm]; apply String.eqb_eq in Hm; subst; tauto.
Qed.

(** the first word of a text that starts with six identifier characters
    starts with them *)
Lemma take_word_prefix (p r : string) :
  forallb is_ident_char (chars p) = true ->
  exists w rest, take_word (p +:+ r) = (p +:+ w, rest).
Proof.
  induction p as [|c p IH]; intros H.
  - simpl. destruct (take_word r) as [w rest]. eauto.
  - simpl in H. apply andb_true_iff in H as [Hc Hp].
    destruct (IH Hp) as (w & rest & E).
    exists w, rest. simpl. now rewrite Hc, E.
Qed.

Lemma begins_with_leading (kw stmt : string) :
  forallb is_ident_char (chars kw) = true ->
  begins_with kw stmt ->
  exists w w2, leading_keyword stmt = (kw +:+ w, (kw +:+ w) +:+ " " +:+ w2).
Proof.
  intros Hkw Hb. unfold begins_with in Hb.
  apply startswith_app in Hb as [r Hr].
  unfold leading_keyword. rewrite Hr.
  destruct (take_word_prefix kw r Hkw) as (w & rest & ->).
  destruct (take_word (lstrip rest)) as [w2 rest2]. eauto.
Qed.

Lemma classify_write_keyword (kw stmt : string) :
  kw ∈ ["INSERT"; "UPDATE"; "DELETE"] -> begins_with kw stmt ->
  classify stmt = Err RejectedStatementError.
Proof.
  intros Hkw Hb. apply classify_not_allow_listed. unfold not_allow_listed.
  assert (Hid : forallb is_ident_char (chars kw) = true).
  { repeat (apply elem_of_cons in Hkw as [->|Hkw]; [reflexivity|]).
    now apply elem_of_nil in Hkw. }
  destruct (begins_with_leading kw stmt Hid Hb) as (w & w2 & ->).
  unfold allowed_keywords. simpl fst. simpl snd. simpl map.
  repeat (apply elem_of_cons in Hkw as [->|Hkw];
          [split; intros Hin;
           repeat (apply elem_of_cons in Hin as [Hin|Hin]; [discriminate Hin|]);
           now apply elem_of_nil in Hin|]).
  now apply elem_of_nil in Hkw.
Qed.

Section LayerFacts.

Variable max_identifier_length : nat.
Variable is_reserved_keyword : string -> bool.
Variable sql_engine : gmap string Table -> string -> list (string * Value) -> EngineOutcome.

Local Abbreviation invalid_reason :=
  (invalid_reason max_identifier_length is_reserved_keyword).
Local Abbreviation validate_identifier :=
  (validate_identifier max_identifier_length is_reserved_keyword).
Local Abbreviation render := (render max_identifier_length is_reserved_keyword).
Local Abbreviation store_execute := (store_execute sql_engine).
Local Abbreviation execute_query_safely :=
  (execute_query_safely max_identifier_length is_reserved_keyword sql_engine).

(** *** The Identifier Validator *)

(** the five conditions of the contract *)
Lemma invalid_reason_iff (raw : string) :
  is_Some (invalid_reason raw) <->
  raw = "" \/ max_identifier_length < String.length raw \/ outside_class raw
  \/ starts_with_digit raw = true \/ is_reserved_keyword raw = true.
Proof.
  unfold SqlSecurity.invalid_reason.
  destruct (truthy raw) eqn:Ht; simpl.
  2:{ apply truthy_false_iff in Ht. split; eauto. }
  assert (Hne : raw <> "") by (intros ->; discriminate).
  destruct (Nat.ltb_spec max_identifier_length (String.length raw)) as [Hl|Hl].
  { split; eauto. }
  destruct (forallb is_ident_char (chars raw)) eqn:Hc; simpl.
  2:{ apply forallb_not_ident_iff in Hc. split; eauto. }
  assert (Hin : ~ outside_class raw).
  { intros Ho. apply forallb_not_ident_iff in Ho. congruence. }
  destruct (starts_with_digit raw) eqn:Hd.
  { split; eauto. }
  destruct (is_reserved_keyword raw) eqn:Hr.
  { split; eauto. }
  split.
  - intros [? ?]. discriminate.
  - intros [?|[?|[?|[?|?]]]]; try contradiction; try discriminate; lia.
Qed.

Lemma validate_identifier_fails_iff (raw : string) (kind : IdentifierKind) :
  (exists why, validate_identifier raw kind = Err (InvalidIdentifierError kind raw why))
  <-> is_Some (invalid_reason raw).
Proof.
  unfold SqlSecurity.validate_identifier.
  destruct invalid_reason as [why|]; split.
  - eauto.
  - eauto.
  - intros [? ?]; discriminate.
  - intros [? ?]; discriminate.
Qed.

(** validation either fails with [InvalidIdentifierError] or returns the
    name unchanged *)
Lemma validate_identifier_total (raw : string) (kind : IdentifierKind) :
  (exists why, validate_identifier raw kind = Err (InvalidIdentifierError kind raw why))
  \/ validate_identifier raw kind = Ok raw.
Proof.
  unfold SqlSecurity.validate_identifier. destruct invalid_reason; eauto.
Qed.

Lemma valid_ident_chars (t : string) :
  invalid_reason t = None -> forallb is_ident_char (chars t) = true /\ t <> "".
Proof.
  unfold SqlSecurity.invalid_reason.
  destruct (truthy t) eqn:Ht; simpl; [|discriminate].
  destruct (Nat.ltb _ _); [discriminate|].
  destruct (forallb is_ident_char (chars t)); simpl; [|discriminate].
  intros _. split; [reflexivity | intros ->; discriminate].
Qed.

(** *** The Statement Template Engine on the templates of [DROP TABLE] *)

Lemma render_drop_if_exists (t : string) (values : list (string * Value)) :
  invalid_reason t = None ->
  render "DROP TABLE IF EXISTS {table}" {[ "table" := t ]} values
  = Ok {| text := "DROP TABLE IF EXISTS " +:+ t; params := values |}.
Proof.
  intros H. unfold SqlSecurity.render. simpl.
  rewrite lookup_singleton_eq, H. simpl. now rewrite app_empty_r.
Qed.


(** a binding that is not a validated identifier never enters the text *)
Lemma render_unvalidated (t : string) (values : list (string * Value)) :
  is_Some (invalid_reason t) ->
  render "DROP TABLE IF EXISTS {table}" {[ "table" := t ]} values
  = Err (UnvalidatedIdentifierError "table" t).
Proof.
  intros [why H]. unfold SqlSecurity.render. simpl.
  now rewrite lookup_singleton_eq, H.
Qed.

Lemma classify_drop_if_exists (t : string) :
  forallb is_ident_char (chars t) = true ->
  classify ("DROP TABLE IF EXISTS " +:+ t) = Ok DDL.
Proof.
  intros H. pose proof (ident_chars_no_separator t H) as Hs.
  unfold classify, has_separator, contains_char in *. simpl.
  now rewrite Hs.
Qed.


Lemma parse_drop_if_exists (t : string) :
  forallb is_ident_char (chars t) = true -> t <> "" ->
  parse_drop_table ("DROP TABLE IF EXISTS " +:+ t) = Some (true, t).
Proof.
  intros H Hne. unfold parse_drop_table, split. simpl.
  rewrite (split_go_word t None (ident_chars_no_space t H)).
  destruct t; [contradiction | reflexivity].
Qed.


(** a statement without placeholders is rendered as it stands *)
Lemma render_go_plain (ids : gmap string string) (stmt : string) :
  contains_char "{" stmt = false ->
  render_go max_identifier_length is_reserved_keyword ids None stmt = Ok stmt.
Proof.
  unfold contains_char. induction stmt as [|c r IH]; [reflexivity|].
  intros H. change (Ascii.eqb "{" c || existsb (Ascii.eqb "{") (chars r) = false) in H.
  apply orb_false_iff in H as [Hc Hr]. simpl.
  rewrite Ascii.eqb_sym, Hc. now rewrite (IH Hr).
Qed.

Lemma render_plain (stmt : string) (ids : gmap string string)
    (values : list (string * Value)) :
  contains_char "{" stmt = false ->
  render stmt ids values = Ok {| text := stmt; params := values |}.
Proof.
  intros H. unfold SqlSecurity.render. now rewrite (render_go_plain ids stmt H).
Qed.


(** *** The store on [DROP TABLE] *)

Lemma store_execute_drop_existing (st : Store) (r : RenderedStatement)
    (if_exists : bool) (name : string) :
  parse_drop_table (text r) = Some (if_exists, name) ->
  is_Some (tables st !! name) ->
  store_execute st r
  = (succeeded [] [],
     {| tables := delete name (tables st); journal := journal st ++ [text r] |}).
Proof.
  intros Hp [tb Ht]. unfold SqlSecurity.store_execute. now rewrite Hp, Ht.
Qed.


(** every result of the store has rows or an error, never both *)
Lemma store_execute_result_shape (st : Store) (r : RenderedStatement) :
  let res := fst (store_execute st r) in
  (error res = None) \/ (is_Some (error res) /\ rows res = [] /\ columns res = []).
Proof.
  unfold SqlSecurity.store_execute.
  destruct (parse_drop_table (text r)) as [[ie name]|].
  - destruct (tables st !! name); [now left|]. destruct ie; [now left|].
    right. simpl. eauto.
  - destruct (sql_engine _ _ _); [now left|]. right. simpl. eauto.
Qed.

(** *** [execute_query_safely] *)

Lemma execute_rejected (st : Store) (template : string) (ids : gmap string string)
    (values : list (string * Value)) (r : RenderedStatement) (allow_ddl : bool) :
  render template ids values = Ok r ->
  classify (text r) = Err RejectedStatementError ->
  execute_query_safely st template ids values allow_ddl = (Err RejectedStatementError, st).
Proof.
  intros Hr Hc. unfold SqlSecurity.execute_query_safely. now rewrite Hr, Hc.
Qed.


Lemma execute_ddl_admitted (st : Store) (template : string) (ids : gmap string string)
    (values : list (string * Value)) (r : RenderedStatement) :
  render template ids values = Ok r ->
  classify (text r) = Ok DDL ->
  execute_query_safely st template ids values true
  = (Ok (fst (store_execute st r)), snd (store_execute st r)).
Proof.
  intros Hr Hc. unfold SqlSecurity.execute_query_safely. rewrite Hr, Hc.
  now destruct (store_execute st r).
Qed.

Lemma execute_drop_if_exists_existing (st : Store) (t : string)
    (values : list (string * Value)) :
  invalid_reason t = None -> is_Some (tables st !! t) ->
  execute_query_safely st "DROP TABLE IF EXISTS {table}" {[ "table" := t ]} values true
  = (Ok (succeeded [] []),
     {| tables := delete t (tables st);
        journal := journal st ++ ["DROP TABLE IF EXISTS " +:+ t] |}).
Proof.
  intros Hv Ht. destruct (valid_ident_chars t Hv) as [Hc Hne].
  rewrite (execute_ddl_admitted st _ _ _ _ (render_drop_if_exists t values Hv)
             (classify_drop_if_exists t Hc)).
  now rewrite (store_execute_drop_existing st
                 {| text := "DROP TABLE IF EXISTS " +:+ t; params := values |}
                 true t (parse_drop_if_exists t Hc Hne) Ht).
Qed.



(** C2: a statement whose leading keyword, in any case, is none of SELECT,
    WITH, DROP TABLE, CREATE TABLE and ALTER TABLE (in particular one that
    begins with INSERT, UPDATE or DELETE), or that holds a statement
    separator, is classified [RejectedStatementError].
    [execute_query_safely] on a template that renders to it, and on the
    statement itself when it has no placeholder, fails with
    [RejectedStatementError] whatever [allow_ddl] is, and hands the store
    back untouched: tables and journal are those it received, so no part of
    the statement was run. *)
Theorem C2_rejected_statement_is_never_executed (stmt : string) :
  not_allow_listed stmt \/ has_separator stmt = true
  \/ begins_with "INSERT" stmt \/ begins_with "UPDATE" stmt
  \/ begins_with "DELETE" stmt ->
  classify stmt = Err RejectedStatementError /\
  (forall st template ids values allow_ddl,
     render template ids values = Ok {| text := stmt; params := values |} ->
     execute_query_safely st template ids values allow_ddl
     = (Err RejectedStatementError, st)) /\
  (contains_char "{" stmt = false ->
   forall st ids values allow_ddl,
     execute_query_safely st stmt ids values allow_ddl
     = (Err RejectedStatementError, st)).
Proof.
  intros Hbad.
  assert (Hc : classify stmt = Err RejectedStatementError).
  { destruct Hbad as [H|[H|[H|[H|H]]]].
    - now apply classify_not_allow_listed.
    - now apply classify_separator.
    - apply (classify_write_keyword "INSERT"); [set_solver | exact H].
    - apply (classify_write_keyword "UPDATE"); [set_solver | exact H].
    - apply (classify_write_keyword "DELETE"); [set_solver | exact H]. }
  split; [exact Hc|]. split.
  - intros st template ids values allow_ddl Hr.
    exact (execute_rejected st template ids values _ allow_ddl Hr Hc).
  - intros Hplain st ids values allow_ddl.
    exact (execute_rejected st stmt ids values _ allow_ddl
             (render_plain stmt ids values Hplain) Hc).
Qed.


End LayerFacts.
End SqlSecurityFacts.

(** ** Facts about the handlers *)
Module ServerFacts.
Import PyStr PyStrFacts SqlSecurity SqlSecurityFacts Server.
Local Arguments String.append !_ _ /.

(** *** The handler monad *)

Lemma bind_returns {A B} (m : M A) (k : A -> M B) (w w' : World) (a : A) :
  m w = (Returns a, w') -> bind m k w = k a w'.
Proof. intros H. unfold bind. now rewrite H. Qed.

Lemma bind_raises {A B} (m : M A) (k : A -> M B) (w w' : World) (e : Exception) :
  m w = (Raises e, w') -> bind m k w = (Raises e, w').
Proof. intros H. unfold bind. now rewrite H. Qed.

Lemma try_except_returns {A} (m : M A) (h : Exception -> M A) (w w' : World) (a : A) :
  m w = (Returns a, w') -> try_except m h w = (Returns a, w').
Proof. intros H. unfold try_except. now rewrite H. Qed.

Lemma try_except_raises {A} (m : M A) (h : Exception -> M A) (w w' : World)
    (e : Exception) :
  m w = (Raises e, w') -> try_except m h w = h e w'.
Proof. intros H. unfold try_except. now rewrite H. Qed.

(** a handler of the form [try: ... except Exception: return ...] returns *)
Lemma try_except_total {A} (m : M A) (h : Exception -> M A) (w : World) :
  (forall e w1, exists a w2, h e w1 = (Returns a, w2)) ->
  exists a w', try_except m h w = (Returns a, w').
Proof.
  intros Hh. unfold try_except. destruct (m w) as [[a|e] w1]; eauto.
Qed.

Section HandlerFacts.

Variable max_identifier_length : nat.
Variable is_reserved_keyword : string -> bool.
Variable sql_engine : gmap string Table -> string -> list (string * Value) -> EngineOutcome.
Variable str_HTTPException : Z -> string -> string.
Variable str_SQLSecurityError : SQLSecurityError -> string.
Variable format_exc : Exception -> string.
Variable clock : nat -> Z.
Context {str_nat : Str nat} {str_Z : Str Z}
        {str_FileUploadResponse : Str FileUploadResponse.t}.
Variable QueryRequest : Type.
Variable get_database_schema : M SchemaInfo.t.
Variable generate_sql : QueryRequest -> SchemaInfo.t -> M string.
Variable execute_sql_safely : string -> M SqlResult.t.
Variable generate_csv_from_table : string -> M string.
Variable generate_json_from_table : string -> M string.
Variable convert_csv_to_sqlite : list ascii -> string -> M ConvertResult.t.
Variable convert_json_to_sqlite : list ascii -> string -> M ConvertResult.t.
Variable convert_jsonl_to_sqlite : list ascii -> string -> M ConvertResult.t.

Local Abbreviation invalid_reason :=
  (invalid_reason max_identifier_length is_reserved_keyword).
Local Abbreviation validate_identifier :=
  (validate_identifier max_identifier_length is_reserved_keyword).
Local Abbreviation execute_query_safely :=
  (execute_query_safely max_identifier_length is_reserved_keyword sql_engine).
Local Abbreviation exc_str := (exc_str str_HTTPException str_SQLSecurityError).
Local Abbreviation call_validate_identifier :=
  (call_validate_identifier max_identifier_length is_reserved_keyword).
Local Abbreviation upload_file_try :=
  (upload_file_try convert_csv_to_sqlite convert_json_to_sqlite
     convert_jsonl_to_sqlite).
Local Abbreviation upload_error_response :=
  (upload_error_response str_HTTPException str_SQLSecurityError).
Local Abbreviation upload_file :=
  (upload_file str_HTTPException str_SQLSecurityError format_exc
     convert_csv_to_sqlite convert_json_to_sqlite convert_jsonl_to_sqlite).
Local Abbreviation process_natural_language_query_try :=
  (process_natural_language_query_try clock QueryRequest get_database_schema
     generate_sql execute_sql_safely).
Local Abbreviation query_error_response :=
  (query_error_response str_HTTPException str_SQLSecurityError).
Local Abbreviation process_natural_language_query :=
  (process_natural_language_query str_HTTPException str_SQLSecurityError format_exc
     clock QueryRequest get_database_schema generate_sql execute_sql_safely).
Local Abbreviation table_schemas := (table_schemas clock).
Local Abbreviation table_schema_at := (table_schema_at clock).
Local Abbreviation get_database_schema_endpoint :=
  (get_database_schema_endpoint str_HTTPException str_SQLSecurityError format_exc
     clock get_database_schema).
Local Abbreviation delete_table_try :=
  (delete_table_try max_identifier_length is_reserved_keyword sql_engine
     str_HTTPException str_SQLSecurityError).
Local Abbreviation delete_table :=
  (delete_table max_identifier_length is_reserved_keyword sql_engine
     str_HTTPException str_SQLSecurityError format_exc).
Local Abbreviation export_table :=
  (export_table max_identifier_length is_reserved_keyword
     str_HTTPException str_SQLSecurityError format_exc generate_csv_from_table).
Local Abbreviation export_table_json :=
  (export_table_json max_identifier_length is_reserved_keyword
     str_HTTPException str_SQLSecurityError format_exc generate_json_from_table).

(** *** Calls into the security layer *)

Lemma call_validate_ok (raw : string) (kind : IdentifierKind) (w : World) :
  invalid_reason raw = None ->
  call_validate_identifier raw kind w = (Returns raw, w).
Proof.
  intros H. unfold Server.call_validate_identifier, SqlSecurity.validate_identifier.
  now rewrite H.
Qed.

Lemma call_validate_fails (raw : string) (kind : IdentifierKind) (w : World)
    (why : InvalidReason) :
  invalid_reason raw = Some why ->
  call_validate_identifier raw kind w
  = (Raises (SecurityError (InvalidIdentifierError kind raw why)), w).
Proof.
  intros H. unfold Server.call_validate_identifier, SqlSecurity.validate_identifier.
  now rewrite H.
Qed.

(** *** [upload_file] *)

Lemma upload_file_on_failure (file : UploadFile.t) (w w1 : World) (e : Exception) :
  upload_file_try file w = (Raises e, w1) ->
  upload_file file w
  = (Returns (upload_error_response e),
     set_log (log w1 ++ [mkLog ERROR ("[ERROR] File upload failed: " +:+ exc_str e);
                         mkLog ERROR ("[ERROR] Full traceback:" +:+ nl +:+ format_exc e)])
       w1).
Proof.
  intros H. unfold Server.upload_file.
  rewrite (try_except_raises _ _ w w1 e H).
  unfold bind, logger_error, ret, set_log. simpl. now rewrite <- app_assoc.
Qed.

Lemma upload_file_try_unsupported (file : UploadFile.t) (filename : string) (w : World) :
  UploadFile.filename file = Some filename ->
  endswith_any filename [".csv"; ".json"; ".jsonl"] = false ->
  upload_file_try file w
  = (Raises (HTTPException 400 "Only .csv, .json, and .jsonl files are supported"), w).
Proof.
  intros Hf He. unfold Server.upload_file_try, get_filename. rewrite Hf.
  unfold bind, ret. now rewrite He.
Qed.

(** past the test of the extension, the [try] block is the converter of
    the extension on the derived name, followed by the answer *)
Lemma upload_file_try_supported (file : UploadFile.t) (filename : string) (w : World) :
  UploadFile.filename file = Some filename ->
  endswith_any filename [".csv"; ".json"; ".jsonl"] = true ->
  upload_file_try file w
  = (result <- (if endswith filename ".csv" then
                  convert_csv_to_sqlite (UploadFile.content file)
                    (derive_table_name filename)
                else if endswith filename ".jsonl" then
                  convert_jsonl_to_sqlite (UploadFile.content file)
                    (derive_table_name filename)
                else
                  convert_json_to_sqlite (UploadFile.content file)
                    (derive_table_name filename)) ;;
     logger_info
       ("[SUCCESS] File upload: "
        +:+ str_of {| FileUploadResponse.table_name := ConvertResult.table_name result;
                      FileUploadResponse.table_schema := ConvertResult.schema result;
                      FileUploadResponse.row_count := ConvertResult.row_count result;
                      FileUploadResponse.sample_data := ConvertResult.sample_data result;
                      FileUploadResponse.error := None |}) ;;;
     ret {| FileUploadResponse.table_name := ConvertResult.table_name result;
            FileUploadResponse.table_schema := ConvertResult.schema result;
            FileUploadResponse.row_count := ConvertResult.row_count result;
            FileUploadResponse.sample_data := ConvertResult.sample_data result;
            FileUploadResponse.error := None |}) w.
Proof.
  intros Hf He. unfold Server.upload_file_try, get_filename. rewrite Hf.
  unfold bind at 1. unfold ret at 1. rewrite He. reflexivity.
Qed.

(** *** [delete_table] *)

Lemma delete_table_try_invalid (table_name : string) (w : World) (why : InvalidReason) :
  invalid_reason table_name = Some why ->
  delete_table_try table_name w
  = (Raises (HTTPException 400
               (str_SQLSecurityError (InvalidIdentifierError KTable table_name why))), w).
Proof.
  intros H. unfold Server.delete_table_try.
  apply bind_raises.
  now rewrite (try_except_raises _ _ w w _ (call_validate_fails table_name KTable w why H)).
Qed.

(** what is left of the [try] block once validation has passed *)
Lemma delete_table_try_valid (table_name : string) (w : World) :
  invalid_reason table_name = None ->
  delete_table_try table_name w
  = (sqlite3_connect ;;;
     found <- call_check_table_exists table_name ;;
     if negb found then
       conn_close ;;; raise (HTTPException 404 (not_found_detail table_name))
     else
       call_execute_query_safely max_identifier_length is_reserved_keyword sql_engine
         "DROP TABLE IF EXISTS {table}" {[ "table" := table_name ]} [] true ;;;
       conn_commit ;;;
       conn_close ;;;
       logger_info ("[SUCCESS] Table deleted: " +:+ table_name) ;;;
       ret [("message", "Table '" +:+ table_name +:+ "' deleted successfully")]) w.
Proof.
  intros H. unfold Server.delete_table_try.
  now rewrite (bind_returns _ _ w w table_name
                 (try_except_returns _ _ w w _ (call_validate_ok table_name KTable w H))).
Qed.

Lemma delete_table_try_missing (table_name : string) (w : World) :
  invalid_reason table_name = None -> connect_failure w = None ->
  tables (db w) !! table_name = None ->
  delete_table_try table_name w
  = (Raises (HTTPException 404 (not_found_detail table_name)), w).
Proof.
  intros Hv Hc Ht. rewrite (delete_table_try_valid table_name w Hv).
  unfold bind, sqlite3_connect, call_check_table_exists, check_table_exists,
    conn_close, ret, raise.
  rewrite Hc, Ht. rewrite bool_decide_eq_false_2; [reflexivity|].
  intros [? ?]; discriminate.
Qed.

Lemma delete_table_try_existing (table_name : string) (w : World) :
  invalid_reason table_name = None -> connect_failure w = None ->
  is_Some (tables (db w) !! table_name) ->
  delete_table_try table_name w
  = (Returns [("message", "Table '" +:+ table_name +:+ "' deleted successfully")],
     set_log (log w ++ [mkLog INFO ("[SUCCESS] Table deleted: " +:+ table_name)])
       (set_db {| tables := delete table_name (tables (db w));
                  journal := journal (db w) ++ ["DROP TABLE IF EXISTS " +:+ table_name] |}
          w)).
Proof.
  intros Hv Hc Ht. rewrite (delete_table_try_valid table_name w Hv).
  unfold bind, sqlite3_connect, call_check_table_exists, check_table_exists,
    call_execute_query_safely, conn_close, conn_commit, logger_info, ret, raise.
  rewrite Hc. rewrite bool_decide_eq_true_2 by exact Ht. cbv [negb]. cbv beta iota.
  now rewrite (execute_drop_if_exists_existing max_identifier_length is_reserved_keyword
                 sql_engine (db w) table_name [] Hv Ht).
Qed.

Lemma delete_table_try_unavailable (table_name : string) (w : World) (diagnostic : string) :
  invalid_reason table_name = None -> connect_failure w = Some diagnostic ->
  delete_table_try table_name w
  = (Raises (PyException "OperationalError" diagnostic), w).
Proof.
  intros Hv Hc. rewrite (delete_table_try_valid table_name w Hv).
  unfold bind, sqlite3_connect. now rewrite Hc.
Qed.

(** [except HTTPException: raise] *)
Lemma delete_table_reraises (table_name : string) (w w1 : World)
    (status_code : Z) (detail : string) :
  delete_table_try table_name w = (Raises (HTTPException status_code detail), w1) ->
  delete_table table_name w = (Raises (HTTPException status_code detail), w1).
Proof.
  intros H. unfold Server.delete_table. now rewrite (try_except_raises _ _ w w1 _ H).
Qed.

(** [except Exception as e: ... raise HTTPException(500, ...)] *)
Lemma delete_table_wraps (table_name : string) (w w1 : World) (e : Exception) :
  delete_table_try table_name w = (Raises e, w1) ->
  (forall status_code detail, e <> HTTPException status_code detail) ->
  delete_table table_name w
  = (Raises (HTTPException 500 ("Error deleting table: " +:+ exc_str e)),
     set_log (log w1 ++ [mkLog ERROR ("[ERROR] Table deletion failed: " +:+ exc_str e);
                         mkLog ERROR ("[ERROR] Full traceback:" +:+ nl +:+ format_exc e)])
       w1).
Proof.
  intros H Hne. unfold Server.delete_table. rewrite (try_except_raises _ _ w w1 _ H).
  destruct e as [sc d|se|cls msg]; [now destruct (Hne sc d)| |];
    unfold bind, logger_error, raise, set_log; simpl; now rewrite <- app_assoc.
Qed.

(** *** [export_table] and [export_table_json] *)

Lemma export_table_try_missing (request : ExportRequest.t) (w : World) :
  invalid_reason (ExportRequest.table_name request) = None ->
  connect_failure w = None ->
  tables (db w) !! ExportRequest.table_name request = None ->
  Server.export_table_try max_identifier_length is_reserved_keyword
    generate_csv_from_table request w
  = (Raises (HTTPException 404 (not_found_detail (ExportRequest.table_name request))), w).
Proof.
  intros Hv Hc Ht. unfold Server.export_table_try.
  rewrite (bind_returns _ _ w w _ (call_validate_ok _ KTable w Hv)).
  unfold bind, sqlite3_connect, call_check_table_exists, check_table_exists,
    conn_close, ret, raise.
  rewrite Hc, Ht. rewrite bool_decide_eq_false_2; [reflexivity|].
  intros [? ?]; discriminate.
Qed.

Lemma export_table_json_try_missing (request : ExportRequest.t) (w : World) :
  invalid_reason (ExportRequest.table_name request) = None ->
  connect_failure w = None ->
  tables (db w) !! ExportRequest.table_name request = None ->
  Server.export_table_json_try max_identifier_length is_reserved_keyword
    generate_json_from_table request w
  = (Raises (HTTPException 404 (not_found_detail (ExportRequest.table_name request))), w).
Proof.
  intros Hv Hc Ht. unfold Server.export_table_json_try.
  rewrite (bind_returns _ _ w w _ (call_validate_ok _ KTable w Hv)).
  unfold bind, sqlite3_connect, call_check_table_exists, check_table_exists,
    conn_close, ret, raise.
  rewrite Hc, Ht. rewrite bool_decide_eq_false_2; [reflexivity|].
  intros [? ?]; discriminate.
Qed.

(** *** [process_natural_language_query] *)

Lemma query_try_returns_inv (request : QueryRequest) (w w' : World)
    (resp : QueryResponse.t) :
  process_natural_language_query_try request w = (Returns resp, w') ->
  exists schema w1 sql w2 result w3,
    get_database_schema w = (Returns schema, w1) /\
    generate_sql request schema w1 = (Returns sql, w2) /\
    execute_sql_safely sql (after_start w2) = (Returns result, w3) /\
    truthy_opt (SqlResult.error result) = false /\
    resp = query_success_response sql result
             (clock (clock_reads w3) - clock (clock_reads w2))%Z.
Proof.
  unfold Server.process_natural_language_query_try, bind, datetime_now.
  destruct (get_database_schema w) as [[schema|e] w1] eqn:E1; [|discriminate].
  destruct (generate_sql request schema w1) as [[sql|e] w2] eqn:E2; [|discriminate].
  fold (after_start w2).
  destruct (execute_sql_safely sql (after_start w2)) as [[result|e] w3] eqn:E3;
    [|discriminate].
  destruct (truthy_opt (SqlResult.error result)) eqn:E4; [discriminate|].
  unfold logger_info, ret. intros H. injection H as <- _.
  exists schema, w1, sql, w2, result, w3. repeat split; assumption || reflexivity.
Qed.

Lemma query_try_result (request : QueryRequest) (w w1 w2 w3 : World)
    (schema : SchemaInfo.t) (sql : string) (result : SqlResult.t) :
  get_database_schema w = (Returns schema, w1) ->
  generate_sql request schema w1 = (Returns sql, w2) ->
  execute_sql_safely sql (after_start w2) = (Returns result, w3) ->
  fst (process_natural_language_query_try request w)
  = if truthy_opt (SqlResult.error result)
    then Raises (PyException "Exception" (str_opt (SqlResult.error result)))
    else Returns (query_success_response sql result
                    (clock (clock_reads w3) - clock (clock_reads w2))%Z).
Proof.
  intros E1 E2 E3.
  unfold Server.process_natural_language_query_try, bind, datetime_now.
  rewrite E1, E2. fold (after_start w2). rewrite E3.
  destruct (truthy_opt (SqlResult.error result)); reflexivity.
Qed.

Lemma query_on_failure (request : QueryRequest) (w w1 : World) (e : Exception) :
  process_natural_language_query_try request w = (Raises e, w1) ->
  process_natural_language_query request w
  = (Returns (query_error_response e),
     set_log (log w1 ++ [mkLog ERROR ("[ERROR] Query processing failed: " +:+ exc_str e);
                         mkLog ERROR ("[ERROR] Full traceback:" +:+ nl +:+ format_exc e)])
       w1).
Proof.
  intros H. unfold Server.process_natural_language_query.
  rewrite (try_except_raises _ _ w w1 e H).
  unfold bind, logger_error, ret, set_log. simpl. now rewrite <- app_assoc.
Qed.

(** *** [get_database_schema_endpoint] *)

Lemma table_schemas_spec (items : list (string * TableInfo.t)) (w : World) :
  table_schemas items w
  = (Returns (imap (table_schema_at (clock_reads w)) items),
     set_clock_reads (clock_reads w + length items) w).
Proof.
  revert w. induction items as [|[table_name table_info] rest IH]; intros w.
  - simpl. unfold ret, set_clock_reads. rewrite Nat.add_0_r. now destruct w.
  - simpl. unfold bind at 1. unfold datetime_now.
    unfold bind at 1. rewrite IH. unfold ret. simpl. f_equal.
    + f_equal. f_equal.
      * unfold Server.table_schema_at. simpl. now rewrite Nat.add_0_r.
      * apply imap_ext. intros i x _. unfold Server.table_schema_at. simpl.
        f_equal. f_equal. lia.
    + unfold set_clock_reads. simpl. f_equal. lia.
Qed.

Lemma column_infos_flags (cols : list (string * string)) (c : ColumnInfo.t) :
  c ∈ column_infos cols ->
  ColumnInfo.nullable c = true /\ ColumnInfo.primary_key c = false.
Proof.
  unfold column_infos. intros H. apply list_elem_of_fmap in H as ([n t] & -> & _).
  split; reflexivity.
Qed.

(** *** The claims about the handlers *)

(** C1: [validate_identifier(raw, kind)] fails with
    [InvalidIdentifierError] exactly when [raw] is empty, is longer than the
    maximum length, holds a character outside [[A-Za-z0-9_]], starts with a
    digit, or is a reserved SQL keyword, and otherwise returns [raw]; and
    for a name with a character outside the class, [delete_table] answers
    HTTP 400 in the world it was called in: no connection was opened, no
    statement built or run, nothing logged. *)
Theorem C1_validate_identifier_contract (raw : string) (kind : IdentifierKind) :
  ((exists why, validate_identifier raw kind = Err (InvalidIdentifierError kind raw why))
   <-> raw = "" \/ max_identifier_length < String.length raw \/ outside_class raw
       \/ leading_digit raw \/ is_reserved_keyword raw = true) /\
  ((exists why, validate_identifier raw kind = Err (InvalidIdentifierError kind raw why))
   \/ validate_identifier raw kind = Ok raw) /\
  (outside_class raw ->
   exists why,
     validate_identifier raw KTable = Err (InvalidIdentifierError KTable raw why) /\
     forall w, delete_table raw w
               = (Raises (HTTPException 400
                            (str_SQLSecurityError (InvalidIdentifierError KTable raw why))),
                  w)).
Proof.
  split; [|split].
  - rewrite validate_identifier_fails_iff, <- starts_with_digit_iff.
    apply invalid_reason_iff.
  - apply validate_identifier_total.
  - intros Hout.
    assert (Hs : is_Some (invalid_reason raw)).
    { apply invalid_reason_iff. auto. }
    destruct Hs as [why Hwhy]. exists why. split.
    + unfold SqlSecurity.validate_identifier. now rewrite Hwhy.
    + intros w. apply delete_table_reraises. now apply delete_table_try_invalid.
Qed.

(** C4, as the handlers have it: a failure inside a handler reaches the
    caller with the text of the exception, [str(e)], as it was raised: the
    query endpoint returns a response whose [error] is [str(e)], and
    [delete_table] raises HTTP 500 with the detail
    ["Error deleting table: " + str(e)].  The stack trace is written to the
    log only: the reply is the same whatever [traceback.format_exc()]
    gives. *)
Theorem C4_failures_reach_the_caller_as_str_e :
  (forall request w e w1,
     process_natural_language_query_try request w = (Raises e, w1) ->
     exists w',
       process_natural_language_query request w = (Returns (query_error_response e), w') /\
       QueryResponse.error (query_error_response e) = Some (exc_str e) /\
       log w' = log w1
                ++ [mkLog ERROR ("[ERROR] Query processing failed: " +:+ exc_str e);
                    mkLog ERROR ("[ERROR] Full traceback:" +:+ nl +:+ format_exc e)]) /\
  (forall table_name w e w1,
     delete_table_try table_name w = (Raises e, w1) ->
     (forall status_code detail, e <> HTTPException status_code detail) ->
     exists w',
       delete_table table_name w
       = (Raises (HTTPException 500 ("Error deleting table: " +:+ exc_str e)), w') /\
       log w' = log w1
                ++ [mkLog ERROR ("[ERROR] Table deletion failed: " +:+ exc_str e);
                    mkLog ERROR ("[ERROR] Full traceback:" +:+ nl +:+ format_exc e)]) /\
  (forall (format_exc' : Exception -> string) request table_name w,
     fst (Server.process_natural_language_query str_HTTPException str_SQLSecurityError
            format_exc' clock QueryRequest get_database_schema generate_sql
            execute_sql_safely request w)
     = fst (process_natural_language_query request w) /\
     fst (Server.delete_table max_identifier_length is_reserved_keyword sql_engine
            str_HTTPException str_SQLSecurityError format_exc' table_name w)
     = fst (delete_table table_name w)).
Proof.
  split; [|split].
  - intros request w e w1 H. eexists.
    split; [exact (query_on_failure request w w1 e H)|].
    split; reflexivity.
  - intros table_name w e w1 H Hne. eexists.
    split; [exact (delete_table_wraps table_name w w1 e H Hne) | reflexivity].
  - intros format_exc' request table_name w. split.
    + unfold Server.process_natural_language_query, try_except.
      destruct (process_natural_language_query_try request w) as [[resp|e] w1];
        reflexivity.
    + unfold Server.delete_table, try_except.
      destruct (delete_table_try table_name w) as [[resp|e] w1]; [reflexivity|].
      destruct e; reflexivity.
Qed.

(** C5: the query endpoint always returns a response, and the response
    either carries the rows and columns of the execution with no error, or
    carries an error with no rows and no columns; it never has both rows
    and an error.  A result of [execute_sql_safely] whose [error] is set
    gives the second kind, with that error and without the result's rows;
    a result without error gives the first kind. *)
Theorem C5_query_response_rows_or_error (request : QueryRequest) (w : World) :
  exists resp w',
    process_natural_language_query request w = (Returns resp, w') /\
    ((QueryResponse.error resp = None /\
      exists sql result execution_time,
        truthy_opt (SqlResult.error result) = false /\
        resp = query_success_response sql result execution_time)
     \/
     (exists msg, QueryResponse.error resp = Some msg /\
        QueryResponse.results resp = [] /\ QueryResponse.columns resp = [] /\
        QueryResponse.row_count resp = 0)) /\
    ~ (QueryResponse.results resp <> [] /\ QueryResponse.error resp <> None) /\
    (forall schema w1 sql w2 result w3,
       get_database_schema w = (Returns schema, w1) ->
       generate_sql request schema w1 = (Returns sql, w2) ->
       execute_sql_safely sql (after_start w2) = (Returns result, w3) ->
       (truthy_opt (SqlResult.error result) = true ->
        QueryResponse.error resp = SqlResult.error result /\
        QueryResponse.results resp = [] /\ QueryResponse.columns resp = []) /\
       (truthy_opt (SqlResult.error result) = false ->
        QueryResponse.error resp = None /\
        QueryResponse.results resp = SqlResult.results result /\
        QueryResponse.columns resp = SqlResult.columns result /\
        QueryResponse.sql resp = sql)).
Proof.
  destruct (process_natural_language_query_try request w) as [[resp|e] w1] eqn:E.
  - exists resp, w1.
    split; [unfold Server.process_natural_language_query;
            now rewrite (try_except_returns _ _ w w1 resp E)|].
    destruct (query_try_returns_inv request w w1 resp E)
      as (schema & wa & sql & wb & result & wc & E1 & E2 & E3 & E4 & ->).
    split; [left; split; [reflexivity | eauto]|].
    split; [intros [_ H]; now apply H|].
    intros schema' w1' sql' w2' result' w3' E1' E2' E3'.
    rewrite E1 in E1'. injection E1' as <- <-.
    rewrite E2 in E2'. injection E2' as <- <-.
    rewrite E3 in E3'. injection E3' as <- <-.
    split; [congruence | intros _; repeat split; reflexivity].
  - exists (query_error_response e). eexists.
    split; [exact (query_on_failure request w w1 e E)|].
    split; [right; exists (exc_str e); repeat split; reflexivity|].
    split; [intros [H _]; now apply H|].
    intros schema w1' sql w2 result w3 E1 E2 E3.
    pose proof (query_try_result request w w1' w2 w3 schema sql result E1 E2 E3) as H.
    rewrite E in H. simpl in H.
    destruct (truthy_opt (SqlResult.error result)) eqn:E4; [|discriminate].
    injection H as ->. split; [|discriminate].
    intros _. simpl. split; [|split; reflexivity].
    destruct (SqlResult.error result); [reflexivity | discriminate].
Qed.

(** C6: for a validated name [t] of a table that exists,
    [execute_query_safely(conn, "DROP TABLE IF EXISTS {table}", {table: t},
    allow_ddl=true)] succeeds and leaves a store on which
    [check_table_exists(conn, t)] is false; [delete_table], which makes
    this call, answers with its success message and leaves that store. *)
Theorem C6_drop_table_removes_the_table (st : Store) (t : string) :
  invalid_reason t = None -> is_Some (tables st !! t) ->
  exists st',
    execute_query_safely st "DROP TABLE IF EXISTS {table}" {[ "table" := t ]} [] true
    = (Ok (succeeded [] []), st') /\
    check_table_exists st' t = false /\
    forall w, db w = st -> connect_failure w = None ->
      exists w',
        delete_table t w
        = (Returns [("message", "Table '" +:+ t +:+ "' deleted successfully")], w') /\
        db w' = st'.
Proof.
  intros Hv Ht. eexists. split; [now apply execute_drop_if_exists_existing|].
  split.
  - unfold check_table_exists. simpl. rewrite lookup_delete_eq.
    apply bool_decide_eq_false_2. intros [? ?]; discriminate.
  - intros w <- Hc. eexists. split.
    + unfold Server.delete_table.
      now rewrite (try_except_returns _ _ w _ _ (delete_table_try_existing t w Hv Hc Ht)).
    + reflexivity.
Qed.

(** C7: for a validated name of a table that is missing from a store that
    opens, [delete_table] and [export_table] raise HTTP 404 and leave the
    world as it was, so no statement was run; [export_table_json] runs no
    statement either, but its [except Exception] clause catches the 404
    and the caller gets HTTP 500 whose detail wraps [str] of the 404. *)
Theorem C7_missing_table_replies (request : ExportRequest.t) (w : World) :
  invalid_reason (ExportRequest.table_name request) = None ->
  connect_failure w = None ->
  check_table_exists (db w) (ExportRequest.table_name request) = false ->
  delete_table (ExportRequest.table_name request) w
  = (Raises (HTTPException 404 (not_found_detail (ExportRequest.table_name request))), w) /\
  export_table request w
  = (Raises (HTTPException 404 (not_found_detail (ExportRequest.table_name request))), w) /\
  exists w',
    export_table_json request w
    = (Raises (HTTPException 500
                 ("Error exporting table as JSON: "
                  +:+ str_HTTPException 404
                        (not_found_detail (ExportRequest.table_name request)))), w') /\
    db w' = db w.
Proof.
  intros Hv Hc Hm.
  assert (Ht : tables (db w) !! ExportRequest.table_name request = None).
  { unfold check_table_exists in Hm. apply bool_decide_eq_false in Hm.
    destruct (tables (db w) !! ExportRequest.table_name request) eqn:E; [|reflexivity].
    exfalso. apply Hm. eauto. }
  split; [|split].
  - apply delete_table_reraises. now apply delete_table_try_missing.
  - unfold Server.export_table.
    now rewrite (try_except_raises _ _ w w _ (export_table_try_missing request w Hv Hc Ht)).
  - eexists. split.
    + unfold Server.export_table_json.
      rewrite (try_except_raises _ _ w w _ (export_table_json_try_missing request w Hv Hc Ht)).
      unfold bind, logger_error, raise. reflexivity.
    + reflexivity.
Qed.


(** C9: [upload_file] always returns a [FileUploadResponse] and never
    raises: whenever its [try] block raises an exception [e] (as it does
    with [HTTPException(400, ...)] for a file name that ends in none of
    [.csv], [.json], [.jsonl]), the response has [table_name = ""], an
    empty schema, [row_count = 0], no sample data, and [error = str(e)]. *)
Theorem C9_upload_file_never_raises (file : UploadFile.t) (w : World) :
  (exists resp w', upload_file file w = (Returns resp, w')) /\
  (forall e w1, upload_file_try file w = (Raises e, w1) ->
     exists w',
       upload_file file w
       = (Returns {| FileUploadResponse.table_name := "";
                     FileUploadResponse.table_schema := [];
                     FileUploadResponse.row_count := 0;
                     FileUploadResponse.sample_data := [];
                     FileUploadResponse.error := Some (exc_str e) |}, w')) /\
  (forall filename,
     UploadFile.filename file = Some filename ->
     endswith_any filename [".csv"; ".json"; ".jsonl"] = false ->
     upload_file_try file w
     = (Raises (HTTPException 400 "Only .csv, .json, and .jsonl files are supported"), w) /\
     fst (upload_file file w)
     = Returns {| FileUploadResponse.table_name := "";
                  FileUploadResponse.table_schema := [];
                  FileUploadResponse.row_count := 0;
                  FileUploadResponse.sample_data := [];
                  FileUploadResponse.error :=
                    Some (str_HTTPException 400
                            "Only .csv, .json, and .jsonl files are supported") |}).
Proof.
  split; [|split].
  - unfold Server.upload_file. apply try_except_total.
    intros e w1. unfold bind, logger_error, ret. simpl. eauto.
  - intros e w1 H. eexists. exact (upload_file_on_failure file w w1 e H).
  - intros filename Hf He.
    pose proof (upload_file_try_unsupported file filename w Hf He) as H.
    split; [exact H|]. now rewrite (upload_file_on_failure file w w _ H).
Qed.

(** C10: the schema endpoint always returns; every column of every table
    of its response has [nullable = true] and [primary_key = false]
    (the declared constraints of the store are no input of the handler);
    and when the schema was read, the [i]-th table of the snapshot is
    reported under its name with [created_at] the reading of the clock
    taken for it while the request is handled, and with one column per
    column of the snapshot, in order, each with the snapshot's name and
    declared type, [nullable = true] and [primary_key = false]. *)
Theorem C10_schema_endpoint_reports_defaults (w : World) :
  exists resp w',
    get_database_schema_endpoint w = (Returns resp, w') /\
    (forall t c, t ∈ DatabaseSchemaResponse.tables resp -> c ∈ TableSchema.columns t ->
       ColumnInfo.nullable c = true /\ ColumnInfo.primary_key c = false) /\
    (forall schema w1, get_database_schema w = (Returns schema, w1) ->
       DatabaseSchemaResponse.error resp = None /\
       DatabaseSchemaResponse.tables resp
       = imap (table_schema_at (clock_reads w1)) (SchemaInfo.tables schema) /\
       DatabaseSchemaResponse.total_tables resp = length (SchemaInfo.tables schema) /\
       clock_reads w' = clock_reads w1 + length (SchemaInfo.tables schema) /\
       (forall i t, DatabaseSchemaResponse.tables resp !! i = Some t ->
          TableSchema.created_at t = clock (clock_reads w1 + i) /\
          clock_reads w1 <= clock_reads w1 + i < clock_reads w') /\
       forall i table_name table_info,
         SchemaInfo.tables schema !! i = Some (table_name, table_info) ->
         exists t,
           DatabaseSchemaResponse.tables resp !! i = Some t /\
           TableSchema.name t = table_name /\
           TableSchema.created_at t = clock (clock_reads w1 + i) /\
           TableSchema.columns t
           = map (fun col => {| ColumnInfo.name := fst col;
                                ColumnInfo.type := snd col;
                                ColumnInfo.nullable := true;
                                ColumnInfo.primary_key := false |})
               (TableInfo.columns table_info)).
Proof.
  unfold Server.get_database_schema_endpoint, try_except, bind at 1.
  destruct (get_database_schema w) as [[schema|e] w1] eqn:E.
  - unfold bind at 1. rewrite table_schemas_spec.
    unfold bind, logger_info, ret. eexists. eexists. split; [reflexivity|].
    cbn [DatabaseSchemaResponse.tables DatabaseSchemaResponse.total_tables
         DatabaseSchemaResponse.error].
    split.
    + intros t c Ht Hc. apply list_elem_of_lookup in Ht as [i Hi].
      apply list_lookup_imap_Some in Hi as (item & _ & ->).
      now apply (column_infos_flags (TableInfo.columns (snd item))).
    + intros schema' w1' H. injection H as <- <-.
      split; [reflexivity|]. split; [reflexivity|].
      split; [now rewrite length_imap|]. split; [reflexivity|].
      split.
      * intros i t Hi. apply list_lookup_imap_Some in Hi as (item & Hitem & ->).
        apply lookup_lt_Some in Hitem. split; [reflexivity|].
        unfold set_log, set_clock_reads. simpl. lia.
      * intros i table_name table_info Hi. eexists. split.
        { rewrite list_lookup_imap, Hi. reflexivity. }
        simpl. split; [reflexivity|]. split; [reflexivity|].
        unfold column_infos. apply map_ext. now intros [n ty].
  - unfold bind, logger_error, ret. eexists. eexists. split; [reflexivity|].
    cbn [DatabaseSchemaResponse.tables]. split.
    + intros t c Ht. now apply elem_of_nil in Ht.
    + intros schema w1' H. discriminate.
Qed.

End HandlerFacts.
End ServerFacts.

(** ** The handlers and the layer on concrete requests *)
Module Examples.
Import PyStr SqlSecurity Server.

Lemma C1_witness :
  outside_class "users; DROP TABLE users" /\
  exists why,
    validate_identifier Sample.max_identifier_length Sample.is_reserved_keyword
      "users; DROP TABLE users" KTable
    = Err (InvalidIdentifierError KTable "users; DROP TABLE users" why) /\
    forall w,
      Sample.delete_table "users; DROP TABLE users" w
      = (Raises (HTTPException 400
                   (Sample.str_SQLSecurityError
                      (InvalidIdentifierError KTable "users; DROP TABLE users" why))), w).
Proof.
  assert (H : outside_class "users; DROP TABLE users").
  { exists ";"%char. split; apply (bool_decide_unpack _); vm_compute; exact I. }
  split; [exact H|].
  exact (proj2 (proj2 (ServerFacts.C1_validate_identifier_contract
                         Sample.max_identifier_length Sample.is_reserved_keyword
                         Sample.sql_engine Sample.str_HTTPException
                         Sample.str_SQLSecurityError Sample.format_exc
                         "users; DROP TABLE users" KTable)) H).
Defined.

Lemma C2_witness :
  has_separator "SELECT * FROM customers WHERE 1=1; DELETE FROM customers" = true /\
  classify "SELECT * FROM customers WHERE 1=1; DELETE FROM customers"
  = Err RejectedStatementError /\
  forall allow_ddl,
    execute_query_safely Sample.max_identifier_length Sample.is_reserved_keyword
      Sample.sql_engine Sample.store
      "SELECT * FROM customers WHERE 1=1; DELETE FROM customers" ∅ [] allow_ddl
    = (Err RejectedStatementError, Sample.store).
Proof.
  assert (Hsep : has_separator "SELECT * FROM customers WHERE 1=1; DELETE FROM customers"
                 = true) by reflexivity.
  destruct (SqlSecurityFacts.C2_rejected_statement_is_never_executed
              Sample.max_identifier_length Sample.is_reserved_keyword Sample.sql_engine
              "SELECT * FROM customers WHERE 1=1; DELETE FROM customers"
              (or_intror (or_introl Hsep))) as (Hc & _ & Hplain).
  split; [exact Hsep|]. split; [exact Hc|].
  intros allow_ddl. exact (Hplain eq_refl Sample.store ∅ [] allow_ddl).
Defined.



(** the query endpoint on a query whose execution raises in the store, and
    [delete_table] when the database file cannot be opened: the caller
    receives the text of the store's exception *)
Lemma C4_raw_exception_text_is_returned :
  Sample.execute_sql_safely "SELECT ssn FROM orders" (after_start Sample.world)
  = (Raises (PyException "OperationalError" "no such column: ssn"),
     after_start Sample.world) /\
  fst (Sample.process_natural_language_query "SELECT ssn FROM orders" Sample.world)
  = Returns {| QueryResponse.sql := "";
               QueryResponse.results := [];
               QueryResponse.columns := [];
               QueryResponse.row_count := 0;
               QueryResponse.execution_time_ms := 0;
               QueryResponse.error := Some "no such column: ssn" |} /\
  sqlite3_connect Sample.world_unavailable
  = (Raises (PyException "OperationalError" "unable to open database file"),
     Sample.world_unavailable) /\
  fst (Sample.delete_table "orders" Sample.world_unavailable)
  = Raises (HTTPException 500 "Error deleting table: unable to open database file").
Proof. repeat split; reflexivity. Qed.

Lemma C4_witness :
  exists w',
    Sample.delete_table "orders" Sample.world_unavailable
    = (Raises (HTTPException 500 "Error deleting table: unable to open database file"), w') /\
    log w' = [mkLog ERROR "[ERROR] Table deletion failed: unable to open database file";
              mkLog ERROR ("[ERROR] Full traceback:" +:+ nl
                           +:+ Sample.format_exc
                                 (PyException "OperationalError"
                                    "unable to open database file"))].
Proof.
  destruct (ServerFacts.C4_failures_reach_the_caller_as_str_e
              Sample.max_identifier_length Sample.is_reserved_keyword Sample.sql_engine
              Sample.str_HTTPException Sample.str_SQLSecurityError Sample.format_exc
              Sample.clock string Sample.get_database_schema Sample.generate_sql
              Sample.execute_sql_safely) as (_ & Hdel & _).
  refine (Hdel "orders" Sample.world_unavailable
            (PyException "OperationalError" "unable to open database file")
            Sample.world_unavailable _ _).
  - exact (ServerFacts.delete_table_try_unavailable
             Sample.max_identifier_length Sample.is_reserved_keyword Sample.sql_engine
             Sample.str_HTTPException Sample.str_SQLSecurityError
             "orders" Sample.world_unavailable "unable to open database file"
             eq_refl eq_refl).
  - intros status_code detail. discriminate.
Defined.

Lemma C5_witness :
  exists resp w',
    Sample.process_natural_language_query "SELECT id FROM orders" Sample.world
    = (Returns resp, w') /\
    QueryResponse.error resp = None /\
    QueryResponse.results resp = [[("id", VInt 1)]] /\
    QueryResponse.columns resp = ["id"].
Proof.
  destruct (ServerFacts.C5_query_response_rows_or_error
              Sample.str_HTTPException Sample.str_SQLSecurityError Sample.format_exc
              Sample.clock string Sample.get_database_schema Sample.generate_sql
              Sample.execute_sql_safely "SELECT id FROM orders" Sample.world)
    as (resp & w' & Hrun & _ & _ & Hres).
  exists resp, w'. split; [exact Hrun|].
  destruct (Hres Sample.schema Sample.world "SELECT id FROM orders" Sample.world
              {| SqlResult.results := [[("id", VInt 1)]];
                 SqlResult.columns := ["id"];
                 SqlResult.error := None |}
              (after_start Sample.world) eq_refl eq_refl eq_refl) as (_ & Hok).
  destruct (Hok eq_refl) as (He & Hr & Hc & _). auto.
Defined.

Lemma C6_witness :
  invalid_reason Sample.max_identifier_length Sample.is_reserved_keyword "orders" = None /\
  is_Some (tables Sample.store !! "orders") /\
  exists st',
    execute_query_safely Sample.max_identifier_length Sample.is_reserved_keyword
      Sample.sql_engine Sample.store "DROP TABLE IF EXISTS {table}"
      {[ "table" := "orders" ]} [] true
    = (Ok (succeeded [] []), st') /\
    check_table_exists st' "orders" = false /\
    exists w',
      Sample.delete_table "orders" Sample.world
      = (Returns [("message", "Table 'orders' deleted successfully")], w') /\
      db w' = st'.
Proof.
  assert (Hv : invalid_reason Sample.max_identifier_length Sample.is_reserved_keyword
                 "orders" = None) by reflexivity.
  assert (Ht : is_Some (tables Sample.store !! "orders")) by (eexists; reflexivity).
  split; [exact Hv|]. split; [exact Ht|].
  destruct (ServerFacts.C6_drop_table_removes_the_table
              Sample.max_identifier_length Sample.is_reserved_keyword Sample.sql_engine
              Sample.str_HTTPException Sample.str_SQLSecurityError Sample.format_exc
              Sample.store "orders" Hv Ht) as (st' & Hrun & Hgone & Hdel).
  exists st'. split; [exact Hrun|]. split; [exact Hgone|].
  exact (Hdel Sample.world eq_refl eq_refl).
Defined.

Lemma C7_witness :
  Sample.delete_table "invoices" Sample.world
  = (Raises (HTTPException 404 "Table 'invoices' not found"), Sample.world) /\
  Sample.export_table (ExportRequest.mk "invoices") Sample.world
  = (Raises (HTTPException 404 "Table 'invoices' not found"), Sample.world) /\
  exists w',
    Sample.export_table_json (ExportRequest.mk "invoices") Sample.world
    = (Raises (HTTPException 500
                 ("Error exporting table as JSON: "
                  +:+ Sample.str_HTTPException 404 "Table 'invoices' not found")), w') /\
    db w' = db Sample.world.
Proof.
  refine (ServerFacts.C7_missing_table_replies
            Sample.max_identifier_length Sample.is_reserved_keyword Sample.sql_engine
            Sample.str_HTTPException Sample.str_SQLSecurityError Sample.format_exc
            Sample.generate_csv_from_table Sample.generate_json_from_table
            (ExportRequest.mk "invoices") Sample.world _ _ _); reflexivity.
Defined.


(** the upload of [q3-report.csv] with a converter that creates the table
    under the name it is given: the derived name is no identifier, and it
    is the name of the table created and returned *)
Lemma C8_unvalidated_name_reaches_the_converter :
  derive_table_name "q3-report.csv" = "q3-report" /\
  validate_identifier Sample.max_identifier_length Sample.is_reserved_keyword
    "q3-report" KTable
  = Err (InvalidIdentifierError KTable "q3-report" BadCharacter) /\
  fst (Sample.upload_file (UploadFile.mk (Some "q3-report.csv") []) Sample.world)
  = Returns {| FileUploadResponse.table_name := "q3-report";
               FileUploadResponse.table_schema := [];
               FileUploadResponse.row_count := 0;
               FileUploadResponse.sample_data := [];
               FileUploadResponse.error := None |} /\
  journal (db (snd (Sample.upload_file (UploadFile.mk (Some "q3-report.csv") [])
                      Sample.world)))
  = ["CREATE TABLE q3-report"].
Proof. repeat split; reflexivity. Qed.

Lemma C9_witness :
  fst (Sample.upload_file (UploadFile.mk (Some "notes.txt") []) Sample.world)
  = Returns {| FileUploadResponse.table_name := "";
               FileUploadResponse.table_schema := [];
               FileUploadResponse.row_count := 0;
               FileUploadResponse.sample_data := [];
               FileUploadResponse.error :=
                 Some "400: Only .csv, .json, and .jsonl files are supported" |}.
Proof.
  destruct (ServerFacts.C9_upload_file_never_raises
              Sample.str_HTTPException Sample.str_SQLSecurityError Sample.format_exc
              Sample.convert_csv_to_sqlite Sample.convert_json_to_sqlite
              Sample.convert_jsonl_to_sqlite
              (UploadFile.mk (Some "notes.txt") []) Sample.world)
    as (_ & _ & H).
  exact (proj2 (H "notes.txt" eq_refl eq_refl)).
Defined.

Lemma C10_witness :
  exists resp w',
    Sample.get_database_schema_endpoint Sample.world = (Returns resp, w') /\
    map TableSchema.created_at (DatabaseSchemaResponse.tables resp)
    = [Sample.clock 0; Sample.clock 1] /\
    forall t c, t ∈ DatabaseSchemaResponse.tables resp -> c ∈ TableSchema.columns t ->
      ColumnInfo.nullable c = true /\ ColumnInfo.primary_key c = false.
Proof.
  destruct (ServerFacts.C10_schema_endpoint_reports_defaults
              Sample.str_HTTPException Sample.str_SQLSecurityError Sample.format_exc
              Sample.clock Sample.get_database_schema Sample.world)
    as (resp & w' & Hrun & Hflags & Hread).
  exists resp, w'. split; [exact Hrun|]. split; [|exact Hflags].
  destruct (Hread Sample.schema Sample.world eq_refl) as (_ & -> & _). reflexivity.
Defined.

End Examples.

(** ** More facts about the [str] operations: suffixes and [rsplit] *)
Module PyStrSuffixFacts.
Import PyStr PyStrFacts.
Local Arguments String.append !_ _ /.

Lemma app_assoc_str (a b c : string) : (a +:+ b) +:+ c = a +:+ (b +:+ c).
Proof. induction a as [|x a IH]; [reflexivity | simpl; now rewrite IH]. Qed.

Lemma rev_app_acc (s t : string) : String.rev_app s t = String.rev s +:+ t.
Proof.
  unfold String.rev. revert t. induction s as [|a s IH]; intros t; [reflexivity|].
  simpl. rewrite (IH (String a t)), (IH (String a EmptyString)).
  now rewrite app_assoc_str.
Qed.

Lemma rev_cons (a : ascii) (s : string) :
  String.rev (String a s) = String.rev s +:+ String a EmptyString.
Proof. unfold String.rev at 1. simpl. apply rev_app_acc. Qed.

Lemma rev_app_distr_str (a b : string) :
  String.rev (a +:+ b) = String.rev b +:+ String.rev a.
Proof.
  induction a as [|x a IH].
  - simpl. now rewrite app_empty_r.
  - simpl. rewrite !rev_cons, IH. apply app_assoc_str.
Qed.

Lemma rev_involutive_str (s : string) : String.rev (String.rev s) = s.
Proof.
  induction s as [|a s IH]; [reflexivity|].
  rewrite rev_cons, rev_app_distr_str, IH. reflexivity.
Qed.

Lemma startswith_app_iff (s p : string) :
  startswith s p = true <-> exists r, s = p +:+ r.
Proof.
  split.
  - revert s. induction p as [|a p IH]; intros s H.
    + exists s. reflexivity.
    + destruct s as [|b s]; simpl in H; [discriminate|].
      apply andb_true_iff in H as [Hab Hp]. apply Ascii.eqb_eq in Hab. subst b.
      destruct (IH s Hp) as [r ->]. exists r. reflexivity.
  - intros [r ->]. induction p as [|a p IH]; [now destruct r|].
    simpl. now rewrite Ascii.eqb_refl, IH.
Qed.

(** [s.endswith(p)] holds exactly when [s] is some text followed by [p] *)
Lemma endswith_iff (s p : string) :
  endswith s p = true <-> exists stem, s = stem +:+ p.
Proof.
  unfold endswith. rewrite startswith_app_iff. split.
  - intros [r Hr]. exists (String.rev r).
    rewrite <- (rev_involutive_str s), Hr, rev_app_distr_str.
    now rewrite rev_involutive_str.
  - intros [stem ->]. exists (String.rev stem). apply rev_app_distr_str.
Qed.

Lemma endswith_any_iff (s : string) (ps : list string) :
  endswith_any s ps = true <-> exists stem p, p ∈ ps /\ s = stem +:+ p.
Proof.
  unfold endswith_any. rewrite existsb_exists. split.
  - intros (p & Hin & He). apply endswith_iff in He as [stem ->].
    exists stem, p. split; [now apply list_elem_of_In | reflexivity].
  - intros (stem & p & Hin & ->). exists p.
    split; [now apply list_elem_of_In | apply endswith_iff; eauto].
Qed.

Lemma rsplit_go_absent (c : ascii) (s : string) :
  contains_char c s = false -> rsplit_go c s = None.
Proof.
  unfold contains_char. induction s as [|x s IH]; [reflexivity|].
  intros H. change (Ascii.eqb c x || existsb (Ascii.eqb c) (chars s) = false) in H.
  apply orb_false_iff in H as [Hx Hs]. simpl.
  now rewrite (IH Hs), Ascii.eqb_sym, Hx.
Qed.

(** [rsplit(c, 1)[0]] of a stem, the separator, and a tail without the
    separator is the stem *)
Lemma rsplit1_head_app (c : ascii) (stem tail : string) :
  contains_char c tail = false ->
  rsplit1_head c (stem +:+ String c tail) = stem.
Proof.
  intros H. unfold rsplit1_head.
  assert (E : rsplit_go c (stem +:+ String c tail) = Some stem).
  { induction stem as [|x stem IH]; simpl.
    - now rewrite (rsplit_go_absent c tail H), Ascii.eqb_refl.
    - now rewrite IH. }
  now rewrite E.
Qed.

(** [rsplit(c, 1)[0]] of a text without the separator is the text *)
Lemma rsplit1_head_absent (c : ascii) (s : string) :
  contains_char c s = false -> rsplit1_head c s = s.
Proof. intros H. unfold rsplit1_head. now rewrite (rsplit_go_absent c s H). Qed.

Lemma lower_char_not_upper (c : ascii) : is_upper (lower_char c) = false.
Proof. destruct c as [[] [] [] [] [] [] [] []]; vm_compute; reflexivity. Qed.

Lemma lower_char_space (c : ascii) :
  lower_char c = " "%char -> c = " "%char.
Proof. destruct c as [[] [] [] [] [] [] [] []]; vm_compute; congruence. Qed.

End PyStrSuffixFacts.

(** ** Further facts about the handlers *)
Module HandlerFacts.
Import PyStr PyStrFacts PyStrSuffixFacts SqlSecurity Server ServerRest ServerFacts.
Local Arguments String.append !_ _ /.

Lemma endswith_ext (stem ext : string) : endswith (stem +:+ ext) ext = true.
Proof. apply endswith_iff. exists stem. reflexivity. Qed.

Lemma endswith_any_ext (stem ext : string) (exts : list string) :
  ext ∈ exts -> endswith_any (stem +:+ ext) exts = true.
Proof. intros H. apply endswith_any_iff. exists stem, ext. split; [exact H | reflexivity]. Qed.

(** the three extensions exclude one another *)
Lemma extensions_disjoint (stem : string) :
  endswith (stem +:+ ".jsonl") ".csv" = false /\
  endswith (stem +:+ ".json") ".csv" = false /\
  endswith (stem +:+ ".json") ".jsonl" = false /\
  endswith (stem +:+ ".csv") ".json" = false /\
  endswith (stem +:+ ".csv") ".jsonl" = false /\
  endswith (stem +:+ ".jsonl") ".json" = false.
Proof.
  unfold endswith. rewrite !rev_app_distr_str. repeat split; reflexivity.
Qed.

Section MoreHandlerFacts.

Variable max_identifier_length : nat.
Variable is_reserved_keyword : string -> bool.
Variable sql_engine : gmap string Table -> string -> list (string * Value) -> EngineOutcome.
Variable str_HTTPException : Z -> string -> string.
Variable str_SQLSecurityError : SQLSecurityError -> string.
Variable format_exc : Exception -> string.
Variable clock : nat -> Z.
Variable app_start_time : Z.
Context {str_nat : Str nat} {str_Z : Str Z}
        {str_FileUploadResponse : Str FileUploadResponse.t}.
Variable QueryRequest : Type.
Variable get_database_schema : M SchemaInfo.t.
Variable generate_sql : QueryRequest -> SchemaInfo.t -> M string.
Variable execute_sql_safely : string -> M SqlResult.t.
Variable generate_csv_from_table : string -> M string.
Variable generate_json_from_table : string -> M string.
Variable convert_csv_to_sqlite : list ascii -> string -> M ConvertResult.t.
Variable convert_json_to_sqlite : list ascii -> string -> M ConvertResult.t.
Variable convert_jsonl_to_sqlite : list ascii -> string -> M ConvertResult.t.
Variable Insight : Type.
Variable generate_insights : string -> option (list string) -> M (list Insight).
Variable generate_random_query : SchemaInfo.t -> M string.
Variable generate_csv_from_data : list Row -> list string -> M string.
Variable generate_json_from_data : list Row -> list string -> M string.
Variable generate_table_data : string -> M DataGenerationResponse.t.
Variable cursor_fetchall : string -> M (list (list Value)).

Local Abbreviation exc_str := (exc_str str_HTTPException str_SQLSecurityError).
Local Abbreviation call_validate_identifier :=
  (call_validate_identifier max_identifier_length is_reserved_keyword).
Local Abbreviation upload_file_try :=
  (upload_file_try convert_csv_to_sqlite convert_json_to_sqlite
     convert_jsonl_to_sqlite).
Local Abbreviation upload_error_response :=
  (upload_error_response str_HTTPException str_SQLSecurityError).
Local Abbreviation upload_file :=
  (upload_file str_HTTPException str_SQLSecurityError format_exc
     convert_csv_to_sqlite convert_json_to_sqlite convert_jsonl_to_sqlite).
Local Abbreviation process_natural_language_query_try :=
  (process_natural_language_query_try clock QueryRequest get_database_schema
     generate_sql execute_sql_safely).
Local Abbreviation process_natural_language_query :=
  (process_natural_language_query str_HTTPException str_SQLSecurityError format_exc
     clock QueryRequest get_database_schema generate_sql execute_sql_safely).
Local Abbreviation get_database_schema_endpoint :=
  (get_database_schema_endpoint str_HTTPException str_SQLSecurityError format_exc
     clock get_database_schema).
Local Abbreviation delete_table_try :=
  (delete_table_try max_identifier_length is_reserved_keyword sql_engine
     str_HTTPException str_SQLSecurityError).
Local Abbreviation delete_table :=
  (delete_table max_identifier_length is_reserved_keyword sql_engine
     str_HTTPException str_SQLSecurityError format_exc).
Local Abbreviation export_table_try :=
  (export_table_try max_identifier_length is_reserved_keyword generate_csv_from_table).
Local Abbreviation export_table :=
  (export_table max_identifier_length is_reserved_keyword
     str_HTTPException str_SQLSecurityError format_exc generate_csv_from_table).
Local Abbreviation export_table_json_try :=
  (export_table_json_try max_identifier_length is_reserved_keyword
     generate_json_from_table).
Local Abbreviation export_table_json :=
  (export_table_json max_identifier_length is_reserved_keyword
     str_HTTPException str_SQLSecurityError format_exc generate_json_from_table).
Local Abbreviation generate_insights_endpoint :=
  (generate_insights_endpoint str_HTTPException str_SQLSecurityError format_exc clock
     Insight generate_insights).
Local Abbreviation generate_random_query_endpoint :=
  (generate_random_query_endpoint str_HTTPException str_SQLSecurityError format_exc
     get_database_schema generate_random_query).
Local Abbreviation health_check_try :=
  (health_check_try clock app_start_time cursor_fetchall).
Local Abbreviation health_check :=
  (health_check str_HTTPException str_SQLSecurityError format_exc clock app_start_time
     cursor_fetchall).
Local Abbreviation export_query_results :=
  (export_query_results str_HTTPException str_SQLSecurityError format_exc
     generate_csv_from_data).
Local Abbreviation export_query_results_json :=
  (export_query_results_json str_HTTPException str_SQLSecurityError format_exc
     generate_json_from_data).
Local Abbreviation generate_data_try :=
  (generate_data_try max_identifier_length is_reserved_keyword
     str_HTTPException str_SQLSecurityError generate_table_data).
Local Abbreviation generate_data_endpoint :=
  (generate_data_endpoint max_identifier_length is_reserved_keyword
     str_HTTPException str_SQLSecurityError format_exc generate_table_data).

(** *** [upload_file]: the derived table name and the choice of converter *)

(** X1: whatever the file name, the table name derived from it holds no
    space and no ASCII capital letter. *)
Theorem derived_name_has_no_space_or_capital (filename : string) (c : ascii) :
  c ∈ chars (derive_table_name filename) ->
  c <> " "%char /\ is_upper c = false.
Proof.
  unfold derive_table_name. generalize (rsplit1_head "." filename). intros s.
  induction s as [|x s IH]; simpl; intros H.
  - now apply elem_of_nil in H.
  - apply elem_of_cons in H as [->|H]; [|now apply IH].
    destruct (Ascii.eqb (lower_char x) " ") eqn:E.
    + split; [discriminate | reflexivity].
    + apply Ascii.eqb_neq in E. split; [exact E | apply lower_char_not_upper].
Qed.

(** X2: for a file name made of a stem, a dot and an extension without dot,
    the derived table name is the stem in lower case with its spaces
    replaced by underscores: only the last extension is cut off, dots of
    the stem stay. *)
Theorem derived_name_of_stem (stem ext : string) :
  contains_char "." ext = false ->
  derive_table_name (stem +:+ "." +:+ ext) = replace_char " " "_" (lower stem).
Proof.
  intros H. unfold derive_table_name.
  change (stem +:+ "." +:+ ext) with (stem +:+ String "." ext).
  now rewrite (rsplit1_head_app "." stem ext H).
Qed.

(** X3: the converter is chosen by the extension: a name [stem.csv] goes to
    [convert_csv_to_sqlite], [stem.jsonl] to [convert_jsonl_to_sqlite] and
    [stem.json] to [convert_json_to_sqlite], each with the table name
    derived from the stem; the answer copies the converter's dictionary. *)
Theorem upload_converter_follows_extension (file : UploadFile.t) (stem : string)
    (w : World) :
  (UploadFile.filename file = Some (stem +:+ ".csv") ->
   upload_file_try file w
   = (result <- convert_csv_to_sqlite (UploadFile.content file)
                  (replace_char " " "_" (lower stem)) ;;
      logger_info ("[SUCCESS] File upload: " +:+ str_of (upload_response result)) ;;;
      ret (upload_response result)) w) /\
  (UploadFile.filename file = Some (stem +:+ ".jsonl") ->
   upload_file_try file w
   = (result <- convert_jsonl_to_sqlite (UploadFile.content file)
                  (replace_char " " "_" (lower stem)) ;;
      logger_info ("[SUCCESS] File upload: " +:+ str_of (upload_response result)) ;;;
      ret (upload_response result)) w) /\
  (UploadFile.filename file = Some (stem +:+ ".json") ->
   upload_file_try file w
   = (result <- convert_json_to_sqlite (UploadFile.content file)
                  (replace_char " " "_" (lower stem)) ;;
      logger_info ("[SUCCESS] File upload: " +:+ str_of (upload_response result)) ;;;
      ret (upload_response result)) w).
Proof.
  destruct (extensions_disjoint stem) as (Ejl & Ej1 & Ej2 & _).
  split; [|split]; intros Hf.
  - rewrite (ServerFacts.upload_file_try_supported convert_csv_to_sqlite
               convert_json_to_sqlite convert_jsonl_to_sqlite file _ w Hf
               (endswith_any_ext stem ".csv" _ (list_elem_of_here _ _))).
    rewrite (endswith_ext stem ".csv").
    rewrite (derived_name_of_stem stem "csv" eq_refl
             : derive_table_name (stem +:+ ".csv") = _).
    reflexivity.
  - rewrite (ServerFacts.upload_file_try_supported convert_csv_to_sqlite
               convert_json_to_sqlite convert_jsonl_to_sqlite file _ w Hf
               (endswith_any_ext stem ".jsonl" _
                  (list_elem_of_further _ _ _
                     (list_elem_of_further _ _ _ (list_elem_of_here _ _))))).
    rewrite Ejl, (endswith_ext stem ".jsonl").
    rewrite (derived_name_of_stem stem "jsonl" eq_refl
             : derive_table_name (stem +:+ ".jsonl") = _).
    reflexivity.
  - rewrite (ServerFacts.upload_file_try_supported convert_csv_to_sqlite
               convert_json_to_sqlite convert_jsonl_to_sqlite file _ w Hf
               (endswith_any_ext stem ".json" _
                  (list_elem_of_further _ _ _ (list_elem_of_here _ _)))).
    rewrite Ej1, Ej2.
    rewrite (derived_name_of_stem stem "json" eq_refl
             : derive_table_name (stem +:+ ".json") = _).
    reflexivity.
Qed.

(** X4: a file name that is not a stem followed by [.csv], [.json] or
    [.jsonl], written exactly so, is refused: the answer is the error
    response that carries the HTTP 400 text, and the store is as it was. *)
Theorem upload_refuses_other_names (file : UploadFile.t) (filename : string)
    (w : World) :
  UploadFile.filename file = Some filename ->
  ~ supported_name filename ->
  exists w',
    upload_file file w
    = (Returns {| FileUploadResponse.table_name := "";
                  FileUploadResponse.table_schema := [];
                  FileUploadResponse.row_count := 0;
                  FileUploadResponse.sample_data := [];
                  FileUploadResponse.error :=
                    Some (str_HTTPException 400
                            "Only .csv, .json, and .jsonl files are supported") |},
       w') /\
    db w' = db w.
Proof.
  intros Hf Hn.
  assert (He : endswith_any filename [".csv"; ".json"; ".jsonl"] = false).
  { destruct (endswith_any filename [".csv"; ".json"; ".jsonl"]) eqn:E; [|reflexivity].
    exfalso. apply Hn. apply endswith_any_iff in E as (stem & ext & Hin & ->).
    exists stem, ext. auto. }
  eexists. split.
  - exact (upload_file_on_failure str_HTTPException str_SQLSecurityError format_exc
             convert_csv_to_sqlite convert_json_to_sqlite convert_jsonl_to_sqlite
             file w w _
             (upload_file_try_unsupported convert_csv_to_sqlite convert_json_to_sqlite
                convert_jsonl_to_sqlite file filename w Hf He)).
  - reflexivity.
Qed.

(** *** [get_database_schema_endpoint] *)

(** X5: in every answer of the schema endpoint [total_tables] is the
    number of tables listed, and an answer that carries an error lists no
    table. *)
Theorem schema_endpoint_counts_tables (w w' : World) (resp : DatabaseSchemaResponse.t) :
  get_database_schema_endpoint w = (Returns resp, w') ->
  DatabaseSchemaResponse.total_tables resp = length (DatabaseSchemaResponse.tables resp) /\
  (is_Some (DatabaseSchemaResponse.error resp) -> DatabaseSchemaResponse.tables resp = []).
Proof.
  unfold Server.get_database_schema_endpoint, try_except, bind at 1.
  destruct (get_database_schema w) as [[schema|e] w1].
  - unfold bind at 1. rewrite table_schemas_spec.
    unfold bind, logger_info, ret. intros [= <- _]. simpl.
    split; [reflexivity | intros [? ?]; discriminate].
  - unfold bind, logger_error, ret. intros [= <- _]. simpl. auto.
Qed.

(** X6: when the schema is read, the endpoint lists its tables in the
    order of the snapshot, each with its name, with its columns' names and
    declared types in order, and with its row count, which is 0 when the
    snapshot has none. *)
Theorem schema_endpoint_keeps_the_snapshot (w w1 : World) (schema : SchemaInfo.t) :
  get_database_schema w = (Returns schema, w1) ->
  exists resp w',
    get_database_schema_endpoint w = (Returns resp, w') /\
    map TableSchema.name (DatabaseSchemaResponse.tables resp)
    = map fst (SchemaInfo.tables schema) /\
    forall i table_name table_info,
      SchemaInfo.tables schema !! i = Some (table_name, table_info) ->
      exists t,
        DatabaseSchemaResponse.tables resp !! i = Some t /\
        TableSchema.name t = table_name /\
        map (fun c => (ColumnInfo.name c, ColumnInfo.type c)) (TableSchema.columns t)
        = TableInfo.columns table_info /\
        TableSchema.row_count t = default 0%Z (TableInfo.row_count table_info).
Proof.
  intros E. unfold Server.get_database_schema_endpoint, try_except, bind at 1.
  rewrite E. unfold bind at 1. rewrite table_schemas_spec.
  unfold bind, logger_info, ret. eexists. eexists. split; [reflexivity|].
  cbn [DatabaseSchemaResponse.tables]. split.
  - generalize (clock_reads w1). induction (SchemaInfo.tables schema) as [|x l IH];
      intros n; [reflexivity|].
    rewrite imap_cons. simpl. f_equal.
    rewrite <- (IH (S n)). f_equal. apply imap_ext. intros i y _.
    unfold table_schema_at. simpl. f_equal. f_equal. lia.
  - intros i table_name table_info Hi. eexists. split.
    + rewrite list_lookup_imap, Hi. reflexivity.
    + simpl. split; [reflexivity|]. split; [|reflexivity].
      unfold column_infos. rewrite map_map.
      rewrite <- (map_id (TableInfo.columns table_info)) at 2.
      apply map_ext. now intros [n t].
Qed.

(** *** [process_natural_language_query] *)

(** X7: in every answer of the query endpoint [row_count] is the number of
    rows returned; an answer that carries an error has no SQL text and an
    execution time of 0, also when SQL had been generated. *)
Theorem query_response_counts_rows (request : QueryRequest) (w w' : World)
    (resp : QueryResponse.t) :
  process_natural_language_query request w = (Returns resp, w') ->
  QueryResponse.row_count resp = length (QueryResponse.results resp) /\
  (is_Some (QueryResponse.error resp) ->
   QueryResponse.sql resp = "" /\ QueryResponse.execution_time_ms resp = 0%Z).
Proof.
  destruct (process_natural_language_query_try request w) as [[r|e] w1] eqn:E.
  - unfold Server.process_natural_language_query.
    rewrite (try_except_returns _ _ w w1 r E). intros [= <- _].
    destruct (query_try_returns_inv clock QueryRequest get_database_schema
                generate_sql execute_sql_safely request w w1 r E)
      as (schema & wa & sql & wb & result & wc & _ & _ & _ & _ & ->).
    split; [reflexivity | intros [? ?]; discriminate].
  - rewrite (query_on_failure str_HTTPException str_SQLSecurityError format_exc clock
               QueryRequest get_database_schema generate_sql execute_sql_safely
               request w w1 e E).
    intros [= <- _]. simpl. auto.
Qed.

(** *** [generate_insights_endpoint] *)

(** X8: the insights endpoint always returns, and its answer names the
    table of the request.  When [generate_insights] returns, the answer
    carries its insights and no error; when it raises [e], the answer has
    no insights and the error [str(e)].  [generated_at] is the reading of
    the clock taken next. *)
Theorem insights_endpoint_answers (request : InsightsRequest.t) (w : World) :
  exists resp w',
    generate_insights_endpoint request w = (Returns resp, w') /\
    InsightsResponse.table_name resp = InsightsRequest.table_name request /\
    match generate_insights (InsightsRequest.table_name request)
            (InsightsRequest.column_names request) w with
    | (Returns insights, w1) =>
        InsightsResponse.insights resp = insights /\
        InsightsResponse.error resp = None /\
        InsightsResponse.generated_at resp = clock (clock_reads w1)
    | (Raises e, w1) =>
        InsightsResponse.insights resp = [] /\
        InsightsResponse.error resp = Some (exc_str e) /\
        InsightsResponse.generated_at resp = clock (clock_reads w1)
    end.
Proof.
  unfold ServerRest.generate_insights_endpoint, try_except, bind at 1.
  destruct (generate_insights _ _ w) as [[insights|e] w1].
  - unfold bind, datetime_now, logger_info, ret. eexists. eexists.
    split; [reflexivity|]. simpl. auto.
  - unfold bind, datetime_now, logger_error, ret. eexists. eexists.
    split; [reflexivity|]. simpl. auto.
Qed.

(** *** [generate_random_query_endpoint] *)

(** X9: when the schema has no table, the random-query endpoint answers
    with its fixed hint and the error ["No tables found in database"]
    in the world the schema read left: the query generator is not run and
    nothing is logged. *)
Theorem random_query_without_tables (w w1 : World) (schema : SchemaInfo.t) :
  get_database_schema w = (Returns schema, w1) ->
  SchemaInfo.tables schema = [] ->
  generate_random_query_endpoint w
  = (Returns {| RandomQueryResponse.query :=
                  "Please upload some data first to generate queries.";
                RandomQueryResponse.error := Some "No tables found in database" |},
     w1).
Proof.
  intros E Ht. unfold ServerRest.generate_random_query_endpoint, try_except, bind.
  rewrite E. unfold no_tables. now rewrite Ht.
Qed.

(** X10: the random-query endpoint always returns.  An answer without
    error carries the query the generator returned for a schema with at
    least one table; every failure of the schema read or of the generator
    gives the fixed apology with the error [str(e)]. *)
Theorem random_query_endpoint_answers (w : World) :
  exists resp w',
    generate_random_query_endpoint w = (Returns resp, w') /\
    match get_database_schema w with
    | (Raises e, _) =>
        resp = {| RandomQueryResponse.query :=
                    "Could not generate a random query. Please try again.";
                  RandomQueryResponse.error := Some (exc_str e) |}
    | (Returns schema, w1) =>
        SchemaInfo.tables schema <> [] ->
        match generate_random_query schema w1 with
        | (Returns random_query, _) =>
            resp = {| RandomQueryResponse.query := random_query;
                      RandomQueryResponse.error := None |}
        | (Raises e, _) =>
            resp = {| RandomQueryResponse.query :=
                        "Could not generate a random query. Please try again.";
                      RandomQueryResponse.error := Some (exc_str e) |}
        end
    end.
Proof.
  unfold ServerRest.generate_random_query_endpoint, try_except, bind at 1.
  destruct (get_database_schema w) as [[schema|e] w1].
  - unfold no_tables. destruct (SchemaInfo.tables schema) as [|x l].
    + unfold ret. eexists. eexists. split; [reflexivity | congruence].
    + unfold bind at 1.
      destruct (generate_random_query schema w1) as [[q|e] w2].
      * unfold bind, logger_info, ret. eexists. eexists. split; reflexivity.
      * unfold bind, logger_error, ret. eexists. eexists. split; reflexivity.
  - unfold bind, logger_error, ret. eexists. eexists. split; reflexivity.
Qed.

(** *** [health_check] *)

(** X11: the health check always returns.  Its answer says
    [database_connected] exactly when its status is ["ok"]; when the [try]
    block raises, whatever the exception, the answer is the one fixed
    record (status ["error"], not connected, 0 tables, uptime 0), so no
    text of the exception reaches the caller; and when the database cannot
    be opened no query is sent. *)
Theorem health_check_answers (w : World) :
  exists resp w',
    health_check w = (Returns resp, w') /\
    (HealthCheckResponse.database_connected resp = true
     <-> HealthCheckResponse.status resp = "ok") /\
    (forall e w1, health_check_try w = (Raises e, w1) -> resp = health_error_response) /\
    (forall diagnostic, connect_failure w = Some diagnostic ->
       resp = health_error_response /\ db w' = db w).
Proof.
  unfold ServerRest.health_check, try_except.
  destruct (health_check_try w) as [[r|e] w1] eqn:E.
  - exists r, w1. split; [reflexivity|].
    revert E. unfold ServerRest.health_check_try, bind at 1, sqlite3_connect.
    destruct (connect_failure w) as [d|]; [discriminate|].
    unfold bind at 1.
    destruct (cursor_fetchall _ w) as [[tables|e] w2]; [|discriminate].
    unfold bind, conn_close, datetime_now, logger_info, ret. intros [= <- _].
    simpl. split; [split; reflexivity|]. split; [discriminate | discriminate].
  - unfold bind, logger_error, ret. eexists. eexists. split; [reflexivity|].
    split; [split; discriminate|]. split; [reflexivity|].
    intros d Hd. split; [reflexivity|].
    revert E. unfold ServerRest.health_check_try, bind at 1, sqlite3_connect.
    rewrite Hd. now intros [= _ <-].
Qed.

(** X12: when the database opens and the look-up of the tables returns,
    the health check answers ["ok"], connected, with the number of rows of
    the look-up as [tables_count] and with the time since
    [app_start_time] as uptime. *)
Theorem health_check_counts_tables (w w1 : World) (tables : list (list Value)) :
  connect_failure w = None ->
  cursor_fetchall "SELECT name FROM sqlite_master WHERE type='table'" w
  = (Returns tables, w1) ->
  exists w',
    health_check w
    = (Returns {| HealthCheckResponse.status := "ok";
                  HealthCheckResponse.database_connected := true;
                  HealthCheckResponse.tables_count := length tables;
                  HealthCheckResponse.uptime_seconds :=
                    (clock (clock_reads w1) - app_start_time)%Z |}, w') /\
    db w' = db w1.
Proof.
  intros Hc Hf. unfold ServerRest.health_check, try_except,
    ServerRest.health_check_try, bind at 1, sqlite3_connect.
  rewrite Hc. unfold bind at 1. rewrite Hf.
  unfold bind, conn_close, datetime_now, logger_info, ret.
  eexists. split; reflexivity.
Qed.

(** *** The export handlers *)

(** X13: [export_table_json] answers every exception of its [try] block,
    an [HTTPException] included, with HTTP 500 and the detail
    ["Error exporting table as JSON: " + str(e)]; no other status leaves
    this handler. *)
Theorem export_table_json_raises_only_500 (request : ExportRequest.t) (w : World) :
  match export_table_json_try request w with
  | (Returns resp, w1) => export_table_json request w = (Returns resp, w1)
  | (Raises e, w1) =>
      exists w',
        export_table_json request w
        = (Raises (HTTPException 500
                     ("Error exporting table as JSON: " +:+ exc_str e)), w') /\
        db w' = db w1
  end.
Proof.
  unfold Server.export_table_json, try_except.
  destruct (export_table_json_try request w) as [[resp|e] w1]; [reflexivity|].
  unfold bind, logger_error, raise. eexists. split; reflexivity.
Qed.

(** X14: the two query-export handlers return the text of their generator
    as an attachment named [query_results.csv] or [query_results.json];
    when the generator raises [e], they raise HTTP 500 with the detail
    ["Error exporting query results: " + str(e)] (["... as JSON: "] for
    the JSON export), and no other status. *)
Theorem query_exports_answer (request : QueryExportRequest.t) (w : World) :
  match generate_csv_from_data (QueryExportRequest.data request)
          (QueryExportRequest.columns request) w with
  | (Returns csv_data, w1) =>
      export_query_results request w
      = (Returns {| Response.content := csv_data;
                    Response.media_type := "text/csv";
                    Response.headers :=
                      [("Content-Disposition",
                        "attachment; filename=" +:+ dquote +:+ "query_results.csv"
                        +:+ dquote)] |}, w1)
  | (Raises e, w1) =>
      exists w',
        export_query_results request w
        = (Raises (HTTPException 500
                     ("Error exporting query results: " +:+ exc_str e)), w') /\
        db w' = db w1
  end /\
  match generate_json_from_data (QueryExportRequest.data request)
          (QueryExportRequest.columns request) w with
  | (Returns json_data, w1) =>
      export_query_results_json request w
      = (Returns {| Response.content := json_data;
                    Response.media_type := "application/json";
                    Response.headers :=
                      [("Content-Disposition",
                        "attachment; filename=" +:+ dquote +:+ "query_results.json"
                        +:+ dquote)] |}, w1)
  | (Raises e, w1) =>
      exists w',
        export_query_results_json request w
        = (Raises (HTTPException 500
                     ("Error exporting query results as JSON: " +:+ exc_str e)), w') /\
        db w' = db w1
  end.
Proof.
  split.
  - unfold ServerRest.export_query_results, try_except, bind.
    destruct (generate_csv_from_data _ _ w) as [[csv_data|e] w1]; [reflexivity|].
    unfold logger_error, raise. eexists. split; reflexivity.
  - unfold ServerRest.export_query_results_json, try_except, bind.
    destruct (generate_json_from_data _ _ w) as [[json_data|e] w1]; [reflexivity|].
    unfold logger_error, raise. eexists. split; reflexivity.
Qed.

(** X15: whatever leaves [delete_table], [export_table] or
    [generate_data_endpoint] as an exception is an [HTTPException]: one
    raised inside is passed on as it is, and any other exception becomes
    HTTP 500 with [str(e)] in [delete_table] and [export_table], while
    [generate_data_endpoint] returns it in a response with
    [success = False]. *)
Theorem only_http_exceptions_escape (table_name : string) (w : World) :
  (forall e w', delete_table table_name w = (Raises e, w') ->
     exists status_code detail, e = HTTPException status_code detail) /\
  (forall e w', export_table (ExportRequest.mk table_name) w = (Raises e, w') ->
     exists status_code detail, e = HTTPException status_code detail) /\
  (forall e w',
     generate_data_endpoint (DataGenerationRequest.mk table_name) w = (Raises e, w') ->
     exists status_code detail, e = HTTPException status_code detail) /\
  (forall e w1,
     generate_data_try (DataGenerationRequest.mk table_name) w = (Raises e, w1) ->
     (forall status_code detail, e <> HTTPException status_code detail) ->
     exists w',
       generate_data_endpoint (DataGenerationRequest.mk table_name) w
       = (Returns {| DataGenerationResponse.success := false;
                     DataGenerationResponse.rows_generated := 0;
                     DataGenerationResponse.message :=
                       "Error generating data: " +:+ exc_str e;
                     DataGenerationResponse.error := Some (exc_str e) |}, w') /\
       db w' = db w1).
Proof.
  split; [|split; [|split]].
  - intros e w'. unfold Server.delete_table, try_except.
    destruct (delete_table_try table_name w) as [[r|e0] w1]; [discriminate|].
    destruct e0; unfold bind, logger_error, raise; intros [= <- _]; eauto.
  - intros e w'. unfold Server.export_table, try_except.
    destruct (export_table_try (ExportRequest.mk table_name) w) as [[r|e0] w1];
      [discriminate|].
    destruct e0; unfold bind, logger_error, raise; intros [= <- _]; eauto.
  - intros e w'. unfold ServerRest.generate_data_endpoint, try_except.
    destruct (generate_data_try (DataGenerationRequest.mk table_name) w)
      as [[r|e0] w1]; [discriminate|].
    destruct e0; unfold bind, logger_error, raise, ret; intros [= <- _] || discriminate;
      eauto.
  - intros e w1 E Hne. unfold ServerRest.generate_data_endpoint, try_except.
    rewrite E. destruct e as [sc d|se|cls msg]; [now destruct (Hne sc d)| |];
      unfold bind, logger_error, ret; eexists; split; reflexivity.
Qed.

(** X16: a table name that [validate_identifier] refuses with the error
    [se] is answered with HTTP 400 and [str(se)] by [delete_table] and
    [generate_data_endpoint], but with HTTP 500 by [export_table]
    (["Error exporting table: " + str(se)]) and by [export_table_json]
    (["Error exporting table as JSON: " + str(se)]); in all four the store
    is as it was. *)
Theorem invalid_name_statuses (table_name : string) (w : World) (se : SQLSecurityError) :
  call_validate_identifier table_name KTable w = (Raises (SecurityError se), w) ->
  delete_table table_name w
  = (Raises (HTTPException 400 (str_SQLSecurityError se)), w) /\
  generate_data_endpoint (DataGenerationRequest.mk table_name) w
  = (Raises (HTTPException 400 (str_SQLSecurityError se)), w) /\
  (exists w',
     export_table (ExportRequest.mk table_name) w
     = (Raises (HTTPException 500
                  ("Error exporting table: " +:+ str_SQLSecurityError se)), w') /\
     db w' = db w) /\
  (exists w',
     export_table_json (ExportRequest.mk table_name) w
     = (Raises (HTTPException 500
                  ("Error exporting table as JSON: " +:+ str_SQLSecurityError se)), w') /\
     db w' = db w).
Proof.
  intros Hv. split; [|split; [|split]].
  - unfold Server.delete_table, try_except, Server.delete_table_try, bind at 1,
      try_except. rewrite Hv. reflexivity.
  - unfold ServerRest.generate_data_endpoint, try_except, ServerRest.generate_data_try,
      bind at 1, try_except. cbn [DataGenerationRequest.table_name].
    rewrite Hv. reflexivity.
  - unfold Server.export_table, try_except, Server.export_table_try, bind at 1.
    cbn [ExportRequest.table_name]. rewrite Hv.
    unfold bind, logger_error, raise. eexists. split; reflexivity.
  - unfold Server.export_table_json, try_except, Server.export_table_json_try,
      bind at 1. cbn [ExportRequest.table_name]. rewrite Hv.
    unfold bind, logger_error, raise. eexists. split; reflexivity.
Qed.

(** X17: for a table that passes validation and the existence check on a
    database that opens, [export_table] returns the text of
    [generate_csv_from_table] as [text/csv] in an attachment named
    [<table>_export.csv], and [export_table_json] the text of
    [generate_json_from_table] as [application/json] in
    [<table>_export.json]; the world is the one the generator left. *)
Theorem table_exports_answer (table_name : string) (w w1 w2 : World)
    (csv_data json_data : string) :
  call_validate_identifier table_name KTable w = (Returns table_name, w) ->
  connect_failure w = None ->
  check_table_exists (db w) table_name = true ->
  generate_csv_from_table table_name w = (Returns csv_data, w1) ->
  generate_json_from_table table_name w = (Returns json_data, w2) ->
  export_table (ExportRequest.mk table_name) w
  = (Returns {| Response.content := csv_data;
                Response.media_type := "text/csv";
                Response.headers :=
                  [("Content-Disposition",
                    "attachment; filename=" +:+ dquote +:+ (table_name +:+ "_export.csv")
                    +:+ dquote)] |}, w1) /\
  export_table_json (ExportRequest.mk table_name) w
  = (Returns {| Response.content := json_data;
                Response.media_type := "application/json";
                Response.headers :=
                  [("Content-Disposition",
                    "attachment; filename=" +:+ dquote +:+ (table_name +:+ "_export.json")
                    +:+ dquote)] |}, w2).
Proof.
  intros Hv Hc Hx Hcsv Hjson. split.
  - unfold Server.export_table, try_except, Server.export_table_try, bind at 1.
    cbn [ExportRequest.table_name]. rewrite Hv.
    unfold bind at 1, sqlite3_connect. rewrite Hc.
    unfold bind at 1, call_check_table_exists. rewrite Hx. cbv [negb]. cbv beta iota.
    unfold bind at 1. rewrite Hcsv. reflexivity.
  - unfold Server.export_table_json, try_except, Server.export_table_json_try,
      bind at 1. cbn [ExportRequest.table_name]. rewrite Hv.
    unfold bind at 1, sqlite3_connect. rewrite Hc.
    unfold bind at 1, call_check_table_exists. rewrite Hx. cbv [negb]. cbv beta iota.
    unfold bind at 1. rewrite Hjson. reflexivity.
Qed.

(** *** [generate_data_endpoint] *)

(** X18: for a name that passes validation, [generate_data_endpoint]
    raises HTTP 404 when the table is missing and generates nothing; when
    the table exists it returns the response of [generate_table_data]
    unchanged; and when the database cannot be opened it returns, rather
    than raises, a response with [success = False], 0 rows and the text of
    the exception. *)
Theorem generate_data_answers (table_name : string) (w : World) :
  call_validate_identifier table_name KTable w = (Returns table_name, w) ->
  (connect_failure w = None -> check_table_exists (db w) table_name = false ->
   generate_data_endpoint (DataGenerationRequest.mk table_name) w
   = (Raises (HTTPException 404 (not_found_detail table_name)), w)) /\
  (connect_failure w = None -> check_table_exists (db w) table_name = true ->
   forall response w1,
     generate_table_data table_name w = (Returns response, w1) ->
     exists w',
       generate_data_endpoint (DataGenerationRequest.mk table_name) w
       = (Returns response, w') /\ db w' = db w1) /\
  (forall diagnostic, connect_failure w = Some diagnostic ->
   exists w',
     generate_data_endpoint (DataGenerationRequest.mk table_name) w
     = (Returns {| DataGenerationResponse.success := false;
                   DataGenerationResponse.rows_generated := 0;
                   DataGenerationResponse.message :=
                     "Error generating data: " +:+ diagnostic;
                   DataGenerationResponse.error := Some diagnostic |}, w') /\
     db w' = db w).
Proof.
  intros Hv.
  assert (Htry : generate_data_try (DataGenerationRequest.mk table_name) w
                 = (sqlite3_connect ;;;
                    found <- call_check_table_exists table_name ;;
                    if negb found then
                      conn_close ;;; raise (HTTPException 404 (not_found_detail table_name))
                    else
                      response <- generate_table_data table_name ;;
                      conn_close ;;;
                      logger_info ("[SUCCESS] Data generation for table '" +:+ table_name
                                   +:+ "': " +:+ DataGenerationResponse.message response) ;;;
                      ret response) w).
  { unfold ServerRest.generate_data_try, bind at 1, try_except.
    cbn [DataGenerationRequest.table_name]. now rewrite Hv. }
  unfold ServerRest.generate_data_endpoint, try_except. rewrite Htry.
  split; [|split].
  - intros Hc Hx. unfold bind at 1, sqlite3_connect. rewrite Hc.
    unfold bind at 1, call_check_table_exists. rewrite Hx. reflexivity.
  - intros Hc Hx response w1 Hg. unfold bind at 1, sqlite3_connect. rewrite Hc.
    unfold bind at 1, call_check_table_exists. rewrite Hx. cbv [negb]. cbv beta iota.
    unfold bind at 1. rewrite Hg.
    unfold bind, conn_close, logger_info, ret. eexists. split; reflexivity.
  - intros d Hd. unfold bind at 1, sqlite3_connect. rewrite Hd.
    unfold bind, logger_error, ret. eexists. split; reflexivity.
Qed.

End MoreHandlerFacts.
End HandlerFacts.

(** ** The further facts on concrete requests *)
Module MoreExamples.
Import PyStr SqlSecurity Server ServerRest.

Lemma derived_name_witness :
  "_"%char ∈ chars (derive_table_name "Q3 Report.csv") /\
  "_"%char <> " "%char /\ is_upper "_" = false.
Proof.
  assert (H : "_"%char ∈ chars (derive_table_name "Q3 Report.csv")).
  { apply (bool_decide_unpack _). vm_compute. exact I. }
  split; [exact H|].
  exact (HandlerFacts.derived_name_has_no_space_or_capital "Q3 Report.csv" "_" H).
Defined.

Lemma derived_name_of_stem_witness :
  contains_char "." "csv" = false /\
  derive_table_name "Sales.2024 Q3.csv" = "sales.2024_q3" /\
  derive_table_name (String (ascii_of_nat 201) "cole Q3" +:+ "." +:+ "csv")
  = String (ascii_of_nat 233) "cole_q3".
Proof.
  split; [reflexivity|]. split.
  - exact (HandlerFacts.derived_name_of_stem "Sales.2024 Q3" "csv" eq_refl).
  - exact (HandlerFacts.derived_name_of_stem (String (ascii_of_nat 201) "cole Q3")
             "csv" eq_refl).
Defined.

Lemma upload_converter_witness :
  SampleRest.upload_file_try (UploadFile.mk (Some "web logs.jsonl") []) Sample.world
  = (result <- Sample.convert_jsonl_to_sqlite [] "web_logs" ;;
     logger_info ("[SUCCESS] File upload: " +:+ str_of (upload_response result)) ;;;
     ret (upload_response result)) Sample.world.
Proof.
  destruct (HandlerFacts.upload_converter_follows_extension
              Sample.convert_csv_to_sqlite Sample.convert_json_to_sqlite
              Sample.convert_jsonl_to_sqlite
              (UploadFile.mk (Some "web logs.jsonl") []) "web logs" Sample.world)
    as (_ & Hjsonl & _).
  exact (Hjsonl eq_refl).
Defined.

Lemma upload_refuses_witness :
  ~ supported_name "DATA.CSV" /\
  exists w',
    Sample.upload_file (UploadFile.mk (Some "DATA.CSV") []) Sample.world
    = (Returns {| FileUploadResponse.table_name := "";
                  FileUploadResponse.table_schema := [];
                  FileUploadResponse.row_count := 0;
                  FileUploadResponse.sample_data := [];
                  FileUploadResponse.error :=
                    Some (Sample.str_HTTPException 400
                            "Only .csv, .json, and .jsonl files are supported") |}, w') /\
    db w' = db Sample.world.
Proof.
  assert (H : ~ supported_name "DATA.CSV").
  { intros (stem & ext & Hin & E).
    assert (Hb : endswith_any "DATA.CSV" [".csv"; ".json"; ".jsonl"] = true).
    { apply PyStrSuffixFacts.endswith_any_iff. exists stem, ext. auto. }
    discriminate Hb. }
  split; [exact H|].
  exact (HandlerFacts.upload_refuses_other_names
           Sample.str_HTTPException Sample.str_SQLSecurityError Sample.format_exc
           Sample.convert_csv_to_sqlite Sample.convert_json_to_sqlite
           Sample.convert_jsonl_to_sqlite
           (UploadFile.mk (Some "DATA.CSV") []) "DATA.CSV" Sample.world
           eq_refl H).
Defined.

Lemma schema_counts_witness :
  exists resp w',
    Sample.get_database_schema_endpoint Sample.world = (Returns resp, w') /\
    DatabaseSchemaResponse.total_tables resp = length (DatabaseSchemaResponse.tables resp) /\
    DatabaseSchemaResponse.total_tables resp = 2.
Proof.
  eexists. eexists. split; [reflexivity|]. split; [|reflexivity].
  exact (proj1 (HandlerFacts.schema_endpoint_counts_tables
                  Sample.str_HTTPException Sample.str_SQLSecurityError Sample.format_exc
                  Sample.clock Sample.get_database_schema Sample.world _ _ eq_refl)).
Defined.

Lemma schema_snapshot_witness :
  Sample.get_database_schema Sample.world = (Returns Sample.schema, Sample.world) /\
  exists resp w',
    Sample.get_database_schema_endpoint Sample.world = (Returns resp, w') /\
    map TableSchema.name (DatabaseSchemaResponse.tables resp) = ["orders"; "drafts"].
Proof.
  split; [reflexivity|].
  destruct (HandlerFacts.schema_endpoint_keeps_the_snapshot
              Sample.str_HTTPException Sample.str_SQLSecurityError Sample.format_exc
              Sample.clock Sample.get_database_schema Sample.world Sample.world
              Sample.schema eq_refl) as (resp & w' & Hrun & Hnames & _).
  exists resp, w'. split; [exact Hrun | exact Hnames].
Defined.

Lemma query_counts_witness :
  exists resp w',
    Sample.process_natural_language_query "SELECT id FROM orders" Sample.world
    = (Returns resp, w') /\
    QueryResponse.row_count resp = length (QueryResponse.results resp) /\
    QueryResponse.row_count resp = 1.
Proof.
  eexists. eexists. split; [reflexivity|]. split; [|reflexivity].
  exact (proj1 (HandlerFacts.query_response_counts_rows
                  Sample.str_HTTPException Sample.str_SQLSecurityError Sample.format_exc
                  Sample.clock string Sample.get_database_schema Sample.generate_sql
                  Sample.execute_sql_safely "SELECT id FROM orders" Sample.world
                  _ _ eq_refl)).
Defined.

Lemma insights_witness :
  exists resp w',
    SampleRest.generate_insights_endpoint (InsightsRequest.mk "invoices" None) Sample.world
    = (Returns resp, w') /\
    InsightsResponse.table_name resp = "invoices" /\
    InsightsResponse.insights resp = [] /\
    InsightsResponse.error resp = Some "Table 'invoices' does not exist".
Proof.
  destruct (HandlerFacts.insights_endpoint_answers
              Sample.str_HTTPException Sample.str_SQLSecurityError Sample.format_exc
              Sample.clock string SampleRest.generate_insights
              (InsightsRequest.mk "invoices" None) Sample.world)
    as (resp & w' & Hrun & Hname & Hno & Herr & _).
  exists resp, w'. auto.
Defined.

Lemma random_query_without_tables_witness :
  SampleRest.no_schema Sample.world
  = (Returns {| SchemaInfo.tables := [] |}, Sample.world) /\
  SampleRest.generate_random_query_endpoint SampleRest.no_schema Sample.world
  = (Returns {| RandomQueryResponse.query :=
                  "Please upload some data first to generate queries.";
                RandomQueryResponse.error := Some "No tables found in database" |},
     Sample.world).
Proof.
  split; [reflexivity|].
  exact (HandlerFacts.random_query_without_tables
           Sample.str_HTTPException Sample.str_SQLSecurityError Sample.format_exc
           SampleRest.no_schema SampleRest.generate_random_query
           Sample.world Sample.world {| SchemaInfo.tables := [] |} eq_refl eq_refl).
Defined.

Lemma random_query_witness :
  exists resp w',
    SampleRest.generate_random_query_endpoint Sample.get_database_schema Sample.world
    = (Returns resp, w') /\
    resp = {| RandomQueryResponse.query := "How many orders are there?";
              RandomQueryResponse.error := None |}.
Proof.
  destruct (HandlerFacts.random_query_endpoint_answers
              Sample.str_HTTPException Sample.str_SQLSecurityError Sample.format_exc
              Sample.get_database_schema SampleRest.generate_random_query Sample.world)
    as (resp & w' & Hrun & Hshape).
  exists resp, w'. split; [exact Hrun|]. apply Hshape. discriminate.
Defined.

Lemma health_check_unavailable_witness :
  exists resp w',
    SampleRest.health_check Sample.world_unavailable = (Returns resp, w') /\
    resp = health_error_response /\ db w' = db Sample.world_unavailable.
Proof.
  destruct (HandlerFacts.health_check_answers
              Sample.str_HTTPException Sample.str_SQLSecurityError Sample.format_exc
              Sample.clock SampleRest.app_start_time SampleRest.cursor_fetchall
              Sample.world_unavailable) as (resp & w' & Hrun & _ & _ & Hdown).
  exists resp, w'. split; [exact Hrun|].
  exact (Hdown "unable to open database file" eq_refl).
Defined.

Lemma health_check_counts_witness :
  connect_failure Sample.world = None /\
  exists w',
    SampleRest.health_check Sample.world
    = (Returns {| HealthCheckResponse.status := "ok";
                  HealthCheckResponse.database_connected := true;
                  HealthCheckResponse.tables_count := 1;
                  HealthCheckResponse.uptime_seconds := 800000000 |}, w').
Proof.
  split; [reflexivity|].
  destruct (HandlerFacts.health_check_counts_tables
              Sample.str_HTTPException Sample.str_SQLSecurityError Sample.format_exc
              Sample.clock SampleRest.app_start_time SampleRest.cursor_fetchall
              Sample.world Sample.world [[VText "orders"]] eq_refl eq_refl)
    as (w' & Hrun & _).
  exists w'. exact Hrun.
Defined.

Lemma export_table_json_witness :
  exists w',
    Sample.export_table_json (ExportRequest.mk "invoices") Sample.world
    = (Raises (HTTPException 500
                 "Error exporting table as JSON: 404: Table 'invoices' not found"), w').
Proof.
  pose proof (HandlerFacts.export_table_json_raises_only_500
                Sample.max_identifier_length Sample.is_reserved_keyword
                Sample.str_HTTPException Sample.str_SQLSecurityError Sample.format_exc
                Sample.generate_json_from_table (ExportRequest.mk "invoices")
                Sample.world) as H.
  change (export_table_json_try Sample.max_identifier_length Sample.is_reserved_keyword
            Sample.generate_json_from_table (ExportRequest.mk "invoices") Sample.world)
    with (@Raises Response.t (HTTPException 404 "Table 'invoices' not found"),
          Sample.world) in H.
  destruct H as (w' & Hrun & _). exists w'. exact Hrun.
Defined.

Lemma query_exports_witness :
  SampleRest.export_query_results (QueryExportRequest.mk [] ["id"]) Sample.world
  = (Returns {| Response.content := "id";
                Response.media_type := "text/csv";
                Response.headers :=
                  [("Content-Disposition",
                    "attachment; filename=" +:+ dquote +:+ "query_results.csv"
                    +:+ dquote)] |}, Sample.world) /\
  exists w',
    SampleRest.export_query_results_json (QueryExportRequest.mk [] []) Sample.world
    = (Raises (HTTPException 500 "Error exporting query results as JSON: no columns"), w').
Proof.
  split.
  - exact (proj1 (HandlerFacts.query_exports_answer
                    Sample.str_HTTPException Sample.str_SQLSecurityError
                    Sample.format_exc SampleRest.generate_csv_from_data
                    SampleRest.generate_json_from_data
                    (QueryExportRequest.mk [] ["id"]) Sample.world)).
  - destruct (proj2 (HandlerFacts.query_exports_answer
                       Sample.str_HTTPException Sample.str_SQLSecurityError
                       Sample.format_exc SampleRest.generate_csv_from_data
                       SampleRest.generate_json_from_data
                       (QueryExportRequest.mk [] []) Sample.world)) as (w' & Hrun & _).
    exists w'. exact Hrun.
Defined.

Lemma only_http_exceptions_witness :
  exists e w',
    Sample.delete_table "orders" Sample.world_unavailable = (Raises e, w') /\
    exists status_code detail, e = HTTPException status_code detail.
Proof.
  eexists. eexists. split; [reflexivity|].
  exact (proj1 (HandlerFacts.only_http_exceptions_escape
                  Sample.max_identifier_length Sample.is_reserved_keyword
                  Sample.sql_engine Sample.str_HTTPException Sample.str_SQLSecurityError
                  Sample.format_exc Sample.generate_csv_from_table
                  SampleRest.generate_table_data "orders" Sample.world_unavailable)
           _ _ eq_refl).
Defined.

Lemma invalid_name_statuses_witness :
  SampleRest.call_validate_identifier "a;b" KTable Sample.world
  = (Raises (SecurityError (InvalidIdentifierError KTable "a;b" BadCharacter)),
     Sample.world) /\
  Sample.delete_table "a;b" Sample.world
  = (Raises (HTTPException 400 "Invalid identifier: a;b"), Sample.world) /\
  exists w',
    Sample.export_table (ExportRequest.mk "a;b") Sample.world
    = (Raises (HTTPException 500 "Error exporting table: Invalid identifier: a;b"), w').
Proof.
  split; [reflexivity|].
  destruct (HandlerFacts.invalid_name_statuses
              Sample.max_identifier_length Sample.is_reserved_keyword Sample.sql_engine
              Sample.str_HTTPException Sample.str_SQLSecurityError Sample.format_exc
              Sample.generate_csv_from_table Sample.generate_json_from_table
              SampleRest.generate_table_data "a;b" Sample.world
              (InvalidIdentifierError KTable "a;b" BadCharacter) eq_refl)
    as (Hdel & _ & (w' & Hexp & _) & _).
  split; [exact Hdel|]. exists w'. exact Hexp.
Defined.

Lemma table_exports_witness :
  check_table_exists (db Sample.world) "orders" = true /\
  Sample.export_table (ExportRequest.mk "orders") Sample.world
  = (Returns {| Response.content := "id,total";
                Response.media_type := "text/csv";
                Response.headers :=
                  [("Content-Disposition",
                    "attachment; filename=" +:+ dquote +:+ "orders_export.csv"
                    +:+ dquote)] |}, Sample.world).
Proof.
  split; [reflexivity|].
  exact (proj1 (HandlerFacts.table_exports_answer
                  Sample.max_identifier_length Sample.is_reserved_keyword
                  Sample.str_HTTPException Sample.str_SQLSecurityError Sample.format_exc
                  Sample.generate_csv_from_table Sample.generate_json_from_table
                  "orders" Sample.world Sample.world Sample.world "id,total" "[]"
                  eq_refl eq_refl eq_refl eq_refl eq_refl)).
Defined.

Lemma generate_data_witness :
  SampleRest.call_validate_identifier "orders" KTable Sample.world_unavailable
  = (Returns "orders", Sample.world_unavailable) /\
  exists w',
    SampleRest.generate_data_endpoint (DataGenerationRequest.mk "orders")
      Sample.world_unavailable
    = (Returns {| DataGenerationResponse.success := false;
                  DataGenerationResponse.rows_generated := 0;
                  DataGenerationResponse.message :=
                    "Error generating data: unable to open database file";
                  DataGenerationResponse.error := Some "unable to open database file" |},
       w').
Proof.
  split; [reflexivity|].
  destruct (HandlerFacts.generate_data_answers
              Sample.max_identifier_length Sample.is_reserved_keyword
              Sample.str_HTTPException Sample.str_SQLSecurityError Sample.format_exc
              SampleRest.generate_table_data "orders" Sample.world_unavailable eq_refl)
    as (_ & _ & Hdown).
  destruct (Hdown "unable to open database file" eq_refl) as (w' & Hrun & _).
  exists w'. exact Hrun.
Defined.

End MoreExamples.
